(** * Verification of the digitalrebar provision API client (package [api])

    A shallow embedding of [api/client.go]: the request builder [R], its
    execution step [Do], the filter compiler [R.Filter], the query and header
    builders, [Client.Close], [Client.ExistsModel], [R.PatchTo] and the
    username/password session set-up.

    Conventions.
    - Go strings are byte strings: [string] with one [ascii] per byte.
    - A pointer receiver that is mutated and returned ([*R]) becomes a
      function from the old record to the new one.  The [*Client] an [R]
      points to is shared with its session, so [Do] reads it from an explicit
      argument instead of from a copy frozen inside [R].
    - Functions of the Go standard library and of packages outside
      [client.go] that the client only calls are gathered in the [Runtime]
      class; the ones with a small closed definition ([url.QueryEscape],
      [url.Values], [http.Header], [strings.ToLower], [strings.Title]) are
      written out. *)

From Stdlib Require Import String Ascii List ZArith NArith Bool Arith Lia.
From Stdlib Require Import Sorted Permutation.
Import ListNotations.

Local Open Scope list_scope.
Local Open Scope string_scope.

(** ** Results of fallible calls: Go's [(value, error)] pairs *)

Inductive result (A : Type) : Type :=
| Ok (a : A)
| Err (msg : string).

Arguments Ok {A} a.
Arguments Err {A} msg.

(** ** Package [strings] *)

Module Strings.

Definition between (lo hi c : ascii) : bool :=
  (N_of_ascii lo <=? N_of_ascii c)%N && (N_of_ascii c <=? N_of_ascii hi)%N.

Definition is_upper (c : ascii) : bool := between "A" "Z" c.
Definition is_lower (c : ascii) : bool := between "a" "z" c.
Definition is_digit (c : ascii) : bool := between "0" "9" c.
Definition is_alnum (c : ascii) : bool := is_upper c || is_lower c || is_digit c.

Definition lower_byte (c : ascii) : ascii :=
  if is_upper c then ascii_of_N (N_of_ascii c + 32) else c.

Definition upper_byte (c : ascii) : ascii :=
  if is_lower c then ascii_of_N (N_of_ascii c - 32) else c.

(** [strings.ToLower] on the ASCII range.  Bytes above 0x7F are left as
    they are, where Go case-maps the runes they encode.  The filter compiler
    compares the result with operator names only, and no rune outside ASCII
    is mapped to a letter of one of them (the two that lower-case into ASCII
    give [k] and [i], the two that title-case into ASCII give [I] and [S]):
    a token is taken for an operator here exactly when Go takes it for one;
    only the operator text quoted in the error for an unknown operator can
    differ, for a token with bytes above 0x7F. *)
Fixpoint ToLower (s : string) : string :=
  match s with
  | EmptyString => EmptyString
  | String c s' => String (lower_byte c) (ToLower s')
  end.

(** [strings.isSeparator]: ASCII alphanumerics and underscore are not
    separators, every other ASCII byte is. *)
Definition isSeparator (c : ascii) : bool :=
  if (N_of_ascii c <=? 127)%N
  then negb (is_alnum c || Ascii.eqb c "_")
  else false.

Fixpoint Title_from (prev : ascii) (s : string) : string :=
  match s with
  | EmptyString => EmptyString
  | String c s' =>
      String (if isSeparator prev then upper_byte c else c) (Title_from c s')
  end.

(** [strings.Title]: the letter that begins each word is upper-cased;
    [prev] starts as a space. *)
Definition Title (s : string) : string := Title_from " " s.

(** [strings.Contains]. *)
Fixpoint Contains (s substr : string) : bool :=
  prefix substr s ||
  match s with
  | EmptyString => false
  | String _ s' => Contains s' substr
  end.

End Strings.

(** ** The filter compiler: the loop of [R.Filter] (client.go 276-318) *)

Module FilterLoop.

(** How the loop leaves: it falls out of [for i < len(filterArgs)] with
    the parameters built so far, it records an error and returns, or an
    index expression is out of range (a Go run-time panic). *)
Inductive outcome : Type :=
| Done (finalParams : list string)
| Invalid (msg : string)
| Panic.

(** [filterArgs[i]] *)
Definition at_ (filterArgs : list string) (i : nat) : option string :=
  nth_error filterArgs i.

Definition is_one_value_keyword (filter : string) : bool :=
  (filter =? "sort") || (filter =? "limit") || (filter =? "offset").

Definition is_unary_op (op : string) : bool :=
  (op =? "Eq") || (op =? "Lt") || (op =? "Lte") ||
  (op =? "Gt") || (op =? "Gte") || (op =? "Ne").

Definition is_binary_op (op : string) : bool :=
  (op =? "Between") || (op =? "Except").

(** One pass of the loop body per unit of fuel.  [i <= len(filterArgs)]
    holds throughout, so the truncated subtraction agrees with Go's. *)
Fixpoint loop (fuel : nat) (filterArgs : list string) (i : nat)
         (finalParams : list string) : option outcome :=
  if negb (i <? length filterArgs)%nat then Some (Done finalParams) else
  match fuel with
  | O => None
  | S fuel' =>
    match at_ filterArgs i with
    | None => Some Panic
    | Some filter =>
      if filter =? "reverse" then
        loop fuel' filterArgs (i + 1) (app finalParams [filter; "true"])
      else if is_one_value_keyword filter then
        if (length filterArgs - i <? 2)%nat then
          Some (Invalid ("Invalid Filter: " ++ filter ++
                         " requires exactly one parameter"))
        else
          match at_ filterArgs (i + 1) with
          | None => Some Panic
          | Some v =>
              loop fuel' filterArgs (i + 2) (app finalParams [filter; v])
          end
      else
        if (length filterArgs - i <? 2)%nat then
          Some (Invalid ("Invalid Filter: " ++ filter ++
                         " requires an op and at least 1 parameter"))
        else
          match at_ filterArgs (i + 1) with
          | None => Some Panic
          | Some rawop =>
            let op := Strings.Title (Strings.ToLower rawop) in
            let i := i + 2 in
            if is_unary_op op then
              if (length filterArgs - i <? 1)%nat then
                Some (Invalid ("Invalid Filter: " ++ filter ++ " op " ++ op ++
                               " requires 1 parameter"))
              else
                match at_ filterArgs i with
                | None => Some Panic
                | Some v =>
                    loop fuel' filterArgs (i + 1)
                         (app finalParams [filter; op ++ "(" ++ v ++ ")"])
                end
            else if is_binary_op op then
              if (length filterArgs - i <? 2)%nat then
                Some (Invalid ("Invalid Filter: " ++ filter ++ " op " ++ op ++
                               " requires 2 parameters"))
              else
                match at_ filterArgs i, at_ filterArgs (i + 1) with
                | Some lo, Some hi =>
                    loop fuel' filterArgs (i + 2)
                         (app finalParams
                            [filter; op ++ "(" ++ lo ++ "," ++ hi ++ ")"])
                | _, _ => Some Panic
                end
            else
              Some (Invalid ("Invalid Filter " ++ filter ++
                             ": unknown op " ++ op))
          end
    end
  end.

(** The loop as [R.Filter] runs it: from [i := 0] with no parameters.
    Every pass consumes at least one token, so [len(filterArgs)] passes
    are enough. *)
Definition run (filterArgs : list string) : option outcome :=
  loop (length filterArgs) filterArgs 0 [].

End FilterLoop.

(** ** The filter grammar, as the specification words it

    A second definition, by recursion on the token sequence itself, of what
    the specification's grammar says a token sequence compiles to: [None]
    when the sequence is rejected. *)

Module FilterGrammar.

Inductive clause : Type :=
| Reverse
| OneValue (keyword value : string)
| Compare (index op value : string)
| Range (index op lower upper : string).

(** The pair of query parameters a clause emits. *)
Definition emit (c : clause) : list string :=
  match c with
  | Reverse => ["reverse"; "true"]
  | OneValue keyword value => [keyword; value]
  | Compare index op value => [index; op ++ "(" ++ value ++ ")"]
  | Range index op lower upper =>
      [index; op ++ "(" ++ lower ++ "," ++ upper ++ ")"]
  end.

Definition keyword_with_value (t : string) : bool :=
  existsb (String.eqb t) ["sort"; "limit"; "offset"].

Definition one_value_ops : list string := ["Eq"; "Lt"; "Lte"; "Gt"; "Gte"; "Ne"].
Definition two_value_ops : list string := ["Between"; "Except"].

(** Two bytes count as the same when they are equal, or when one is an
    upper-case ASCII letter (65 to 90) and the other the same letter in
    lower case, 32 above it. *)
Definition same_byte_ignoring_case (a b : ascii) : bool :=
  let x := N_of_ascii a in
  let y := N_of_ascii b in
  (x =? y)%N
  || ((65 <=? x)%N && (x <=? 90)%N && (y =? x + 32)%N)
  || ((65 <=? y)%N && (y <=? 90)%N && (x =? y + 32)%N).

(** Two strings that differ at most in the case of their letters. *)
Fixpoint equal_ignoring_case (s t : string) : bool :=
  match s, t with
  | EmptyString, EmptyString => true
  | String a s', String b t' =>
      same_byte_ignoring_case a b && equal_ignoring_case s' t'
  | _, _ => false
  end.

(** The operator a token names: the one of [names], written in title
    case, that the token equals whatever its own case. *)
Definition operator (names : list string) (token : string) : option string :=
  find (equal_ignoring_case token) names.

(** Left to right, no backtracking: each clause takes its tokens off the
    front, and the rest is parsed the same way.  A comparison is emitted
    with the operator's name in title case, not with the token as written. *)
Fixpoint parse (tokens : list string) : option (list clause) :=
  match tokens with
  | [] => Some []
  | t :: rest =>
    if t =? "reverse" then option_map (cons Reverse) (parse rest)
    else if keyword_with_value t then
      match rest with
      | value :: rest' => option_map (cons (OneValue t value)) (parse rest')
      | [] => None
      end
    else
      match rest with
      | op :: rest' =>
        match operator one_value_ops op with
        | Some name =>
          match rest' with
          | value :: rest'' =>
              option_map (cons (Compare t name value)) (parse rest'')
          | [] => None
          end
        | None =>
          match operator two_value_ops op with
          | Some name =>
            match rest' with
            | lower :: upper :: rest'' =>
                option_map (cons (Range t name lower upper)) (parse rest'')
            | _ => None
            end
          | None => None
          end
        end
      | [] => None
      end
  end.


End FilterGrammar.

(** ** Package [net/url]: query escaping, [url.Values] and [url.URL] *)

Module Url.

Definition hex_digit (n : N) : ascii :=
  nth (N.to_nat n) (list_ascii_of_string "0123456789ABCDEF") "0"%char.

(** RFC 3986 unreserved bytes, the only ones [QueryEscape] keeps. *)
Definition unreserved (c : ascii) : bool :=
  Strings.is_alnum c || existsb (Ascii.eqb c) ["-"; "_"; "."; "~"]%char.

Definition escape_byte (c : ascii) : string :=
  if unreserved c then String c EmptyString
  else if Ascii.eqb c " " then "+"
  else String "%" (String (hex_digit (N_of_ascii c / 16))
                     (String (hex_digit (N_of_ascii c mod 16)) EmptyString)).

(** [url.QueryEscape] *)
Fixpoint QueryEscape (s : string) : string :=
  match s with
  | EmptyString => EmptyString
  | String c s' => escape_byte c ++ QueryEscape s'
  end.

(** [url.Values] is a [map[string][]string]; [Encode] walks it in sorted
    key order, so the map is kept as an association list sorted by key. *)
Definition Values : Type := list (string * list string).

(** [Values.Add] appends [value] to the values already held under [key]. *)
Fixpoint Add (v : Values) (key value : string) : Values :=
  match v with
  | [] => [(key, [value])]
  | (k, vs) :: rest =>
      match String.compare key k with
      | Eq => (k, app vs [value]) :: rest
      | Lt => (key, [value]) :: (k, vs) :: rest
      | Gt => (k, vs) :: Add rest key value
      end
  end.

(** The [key=value] items of [Encode], in order. *)
Definition items (v : Values) : list string :=
  flat_map (fun kv => map (fun x => QueryEscape (fst kv) ++ "=" ++ QueryEscape x)
                          (snd kv)) v.

(** [Values.Encode]: the items joined by [&]. *)
Definition Encode (v : Values) : string := String.concat "&" (items v).

(** [url.URL], with the fields the client touches. *)
Record URL : Type := {
  Scheme : string;
  Host : string;
  Path : string;
  RawQuery : string
}.

Definition set_RawQuery (u : URL) (q : string) : URL :=
  {| Scheme := Scheme u; Host := Host u; Path := Path u; RawQuery := q |}.

End Url.

(** ** Package [net/http]: headers, requests and responses *)

Module Http.

(** [textproto.validHeaderFieldByte]: the RFC 7230 token bytes. *)
Definition validHeaderFieldByte (c : ascii) : bool :=
  Strings.is_alnum c ||
  existsb (Ascii.eqb c)
    ["!"; "#"; "$"; "%"; "&"; "'"; "*"; "+"; "-"; "."; "^"; "_"; "`"; "|"; "~"]%char.

Fixpoint string_forallb (p : ascii -> bool) (s : string) : bool :=
  match s with
  | EmptyString => true
  | String c s' => p c && string_forallb p s'
  end.

Fixpoint canonical_from (upper : bool) (s : string) : string :=
  match s with
  | EmptyString => EmptyString
  | String c s' =>
      let c' := if upper then Strings.upper_byte c else Strings.lower_byte c in
      String c' (canonical_from (Ascii.eqb c' "-") s')
  end.

(** [textproto.CanonicalMIMEHeaderKey]: first letter and every letter
    after a dash in upper case, the others in lower case; a key with a
    byte that is no token byte is returned unchanged. *)
Definition CanonicalMIMEHeaderKey (s : string) : string :=
  if string_forallb validHeaderFieldByte s then canonical_from true s else s.

(** [http.Header] is a [map[string][]string]; only lookups by key are
    ever made, so an association list with one entry per key. *)
Definition Header : Type := list (string * list string).

Fixpoint lookup (h : Header) (key : string) : list string :=
  match h with
  | [] => []
  | (k, vs) :: rest => if k =? key then vs else lookup rest key
  end.

Fixpoint store (h : Header) (key : string) (vs : list string) : Header :=
  match h with
  | [] => [(key, vs)]
  | (k, old) :: rest =>
      if k =? key then (k, vs) :: rest else (k, old) :: store rest key vs
  end.

(** [Header.Values] *)
Definition Values (h : Header) (key : string) : list string :=
  lookup h (CanonicalMIMEHeaderKey key).

(** [Header.Add] appends to the values of the canonical key. *)
Definition Add (h : Header) (key value : string) : Header :=
  let k := CanonicalMIMEHeaderKey key in
  store h k (app (lookup h k) [value]).

(** [Header.Set] replaces them. *)
Definition Set_ (h : Header) (key value : string) : Header :=
  store h (CanonicalMIMEHeaderKey key) [value].

(** [Header.Get]: the first value, or the empty string. *)
Definition Get (h : Header) (key : string) : string :=
  match Values h key with
  | [] => EmptyString
  | v :: _ => v
  end.

Record Request : Type := {
  Method : string;
  URL : Url.URL;
  ReqHeader : Header;
  ReqBody : option string
}.

Definition set_ReqHeader (req : Request) (h : Header) : Request :=
  {| Method := Method req; URL := URL req; ReqHeader := h;
     ReqBody := ReqBody req |}.

Record Response : Type := {
  StatusCode : Z;
  RespHeader : Header;
  ContentLength : Z;
  RespBody : string
}.

Definition StatusNotFound : Z := 404.

End Http.

(** ** Package [models]: the error accumulator and the model interface *)

Module Models.

(** Modelled from the spec: [models.Error], whose declaration and methods
    live in the [models] package, outside [client.go].  A structured error
    value carrying a kind, the resource type and key it is about, an HTTP
    status code (0 when no response was received) and a growing list of
    messages. *)
Record Error : Type := {
  Model : string;
  Key : string;
  Type_ : string;
  Messages : list string;
  Code : Z
}.

Definition set_Model (e : Error) (m : string) : Error :=
  {| Model := m; Key := Key e; Type_ := Type_ e; Messages := Messages e;
     Code := Code e |}.

Definition set_Key (e : Error) (k : string) : Error :=
  {| Model := Model e; Key := k; Type_ := Type_ e; Messages := Messages e;
     Code := Code e |}.

Definition set_Code (e : Error) (code : Z) : Error :=
  {| Model := Model e; Key := Key e; Type_ := Type_ e; Messages := Messages e;
     Code := code |}.

(** Modelled from the spec: [Error.Errorf] records one more message; the
    caller has already formatted it. *)
Definition Errorf (e : Error) (msg : string) : Error :=
  {| Model := Model e; Key := Key e; Type_ := Type_ e;
     Messages := app (Messages e) [msg]; Code := Code e |}.

(** Modelled from the spec: [Error.AddError] merges an arbitrary error
    into the accumulator; a nil error changes nothing. *)
Definition AddError (e : Error) (src : option string) : Error :=
  match src with
  | None => e
  | Some msg => Errorf e msg
  end.

(** Modelled from the spec: [Error.ContainsError], the boolean view: has
    any error been recorded. *)
Definition ContainsError (e : Error) : bool :=
  match Messages e with
  | [] => false
  | _ :: _ => true
  end.

(** Modelled from the spec: [Error.HasError], the accumulator's aggregate
    state: nil if no error was ever recorded, the accumulator otherwise. *)
Definition HasError (e : Error) : option Error :=
  if ContainsError e then Some e else None.

(** [models.UserToken] *)
Record UserToken : Type := { Token : string }.

(** An implementation of the [models.Model] interface, as far as the
    client looks at it: its resource type, its key, the name of its Go
    type (what the format verb [T] prints) and its fields, as an opaque
    image. *)
Record ModelValue : Type := {
  Prefix : string;
  ModelKey : string;
  GoType : string;
  Fields : string
}.

End Models.

(** ** What the client calls but does not define *)

(** A JSON patch: an ordered sequence of operations. *)
Record Operation : Type := {
  Op : string;
  OpPath : string;
  OpValue : string
}.

Definition Patch : Type := list Operation.

(** The values [R.Body] hands to [json.Marshal]. *)
Inductive value : Type :=
| VPatch (p : Patch)
| VModel (m : Models.ModelValue).

(** Functions of the Go standard library, and of this package outside
    [client.go] ([GenPatch]), that the client calls.  A [result] is Go's
    [(value, error)] pair; an [option string] is an [error], [None] for nil. *)
Class Runtime : Type := {
  (** [path.Join] *)
  path_Join : list string -> string;
  (** [url.ParseRequestURI] *)
  ParseRequestURI : string -> result Url.URL;
  (** the error of [http.NewRequest(method, url, body)], if any *)
  NewRequest_error : string -> Url.URL -> option string;
  (** [http.Client.Do]: the network *)
  RoundTrip : Http.Request -> result Http.Response;
  (** [mime.ParseMediaType], its first result *)
  ParseMediaType : string -> string;
  (** [http.StatusText] *)
  StatusText : Z -> string;
  (** [base64.StdEncoding.EncodeToString] *)
  base64_EncodeToString : string -> string;
  (** [json.Marshal] *)
  json_Marshal : value -> result string;
  (** [json.Decoder.Decode] into a [*models.Error] *)
  json_DecodeError : string -> result Models.Error;
  (** [json.Decoder.Decode] into a [*models.UserToken] *)
  json_DecodeToken : string -> result Models.UserToken;
  (** [GenPatch(old, new, paranoid)] *)
  GenPatch : Models.ModelValue -> Models.ModelValue -> bool -> result Patch
}.

(** ** [Client] and [R] *)

(** [APIPATH] *)
Definition APIPATH : string := "/api/v3".

(** The [closer] channel: open, or closed by [close(c.closer)]. *)
Inductive chan : Type := ChanOpen | ChanClosed.

(** [Client].  The embedded [*http.Client] is the [RoundTrip] of the
    [Runtime]; the mutex has no state of its own between calls. *)
Record Client : Type := {
  endpoint : string;
  username : string;
  password : string;
  token : option Models.UserToken;
  closer : chan;
  closed : bool;
  client_traceLvl : string;
  client_traceToken : string
}.

Definition set_token (c : Client) (t : option Models.UserToken) : Client :=
  {| endpoint := endpoint c; username := username c; password := password c;
     token := t; closer := closer c; closed := closed c;
     client_traceLvl := client_traceLvl c;
     client_traceToken := client_traceToken c |}.

(** [R], one request/response round trip.  The field [c] is a pointer to
    the session's [Client]: the functions that follow it take the client as
    an argument. *)
Record R : Type := {
  method : string;
  uri : option Url.URL;
  header : Http.Header;
  body : option string;
  Req_ : option Http.Request;
  Resp : option Http.Response;
  err : Models.Error;
  paranoid : bool;
  traceLvl : string;
  traceToken : string
}.

Definition set_method (r : R) (v : string) : R :=
  {| method := v; uri := uri r; header := header r; body := body r;
     Req_ := Req_ r; Resp := Resp r; err := err r; paranoid := paranoid r;
     traceLvl := traceLvl r; traceToken := traceToken r |}.

Definition set_uri (r : R) (u : option Url.URL) : R :=
  {| method := method r; uri := u; header := header r; body := body r;
     Req_ := Req_ r; Resp := Resp r; err := err r; paranoid := paranoid r;
     traceLvl := traceLvl r; traceToken := traceToken r |}.

Definition set_header (r : R) (h : Http.Header) : R :=
  {| method := method r; uri := uri r; header := h; body := body r;
     Req_ := Req_ r; Resp := Resp r; err := err r; paranoid := paranoid r;
     traceLvl := traceLvl r; traceToken := traceToken r |}.

Definition set_body (r : R) (b : option string) : R :=
  {| method := method r; uri := uri r; header := header r; body := b;
     Req_ := Req_ r; Resp := Resp r; err := err r; paranoid := paranoid r;
     traceLvl := traceLvl r; traceToken := traceToken r |}.

Definition set_Req (r : R) (q : option Http.Request) : R :=
  {| method := method r; uri := uri r; header := header r; body := body r;
     Req_ := q; Resp := Resp r; err := err r; paranoid := paranoid r;
     traceLvl := traceLvl r; traceToken := traceToken r |}.

Definition set_Resp (r : R) (p : option Http.Response) : R :=
  {| method := method r; uri := uri r; header := header r; body := body r;
     Req_ := Req_ r; Resp := p; err := err r; paranoid := paranoid r;
     traceLvl := traceLvl r; traceToken := traceToken r |}.

Definition set_err (r : R) (e : Models.Error) : R :=
  {| method := method r; uri := uri r; header := header r; body := body r;
     Req_ := Req_ r; Resp := Resp r; err := e; paranoid := paranoid r;
     traceLvl := traceLvl r; traceToken := traceToken r |}.

Definition set_paranoid (r : R) (p : bool) : R :=
  {| method := method r; uri := uri r; header := header r; body := body r;
     Req_ := Req_ r; Resp := Resp r; err := err r; paranoid := p;
     traceLvl := traceLvl r; traceToken := traceToken r |}.

Definition set_traceLvl (r : R) (lvl : string) : R :=
  {| method := method r; uri := uri r; header := header r; body := body r;
     Req_ := Req_ r; Resp := Resp r; err := err r; paranoid := paranoid r;
     traceLvl := lvl; traceToken := traceToken r |}.

Definition set_traceToken (r : R) (t : string) : R :=
  {| method := method r; uri := uri r; header := header r; body := body r;
     Req_ := Req_ r; Resp := Resp r; err := err r; paranoid := paranoid r;
     traceLvl := traceLvl r; traceToken := t |}.

(** [r.err.Errorf(...)] and [r.err.AddError(...)]: [r.err] is a pointer, the
    accumulator is updated in place. *)
Definition r_Errorf (r : R) (msg : string) : R :=
  set_err r (Models.Errorf (err r) msg).

Definition r_AddError (r : R) (src : option string) : R :=
  set_err r (Models.AddError (err r) src).

(** ** The request builder *)

(** [Client.Req] *)
Definition Req (c : Client) : R :=
  {| method := "GET";
     uri := None;
     header := [];
     body := None;
     Req_ := None;
     Resp := None;
     err := {| Models.Model := EmptyString; Models.Key := EmptyString;
               Models.Type_ := "CLIENT_ERROR"; Models.Messages := [];
               Models.Code := 0 |};
     paranoid := false;
     traceLvl := client_traceLvl c;
     traceToken := client_traceToken c |}.

(** [R.Trace], [R.TraceToken] *)
Definition Trace (r : R) (lvl : string) : R := set_traceLvl r lvl.
Definition TraceToken (r : R) (t : string) : R := set_traceToken r t.

(** [R.Meth], [R.Get], [R.Del], [R.Head] *)
Definition Meth (r : R) (v : string) : R := set_method r v.
Definition Get (r : R) : R := Meth r "GET".
Definition Del (r : R) : R := Meth r "DELETE".
Definition Head (r : R) : R := Meth r "HEAD".

(** [R.ParanoidPatch] *)
Definition ParanoidPatch (r : R) : R := set_paranoid r true.

(** The [(args[i-1], args[i])] pairs the loops of [Params] and [Headers]
    visit, [i = 1, 3, 5, ...] while [i < len(args)]. *)
Fixpoint pairs (args : list string) : list (string * string) :=
  match args with
  | k :: v :: rest => (k, v) :: pairs rest
  | _ => []
  end.

(** [len(args)&1 == 1] *)
Definition odd_len (args : list string) : bool := Nat.odd (length args).

(** [R.Headers] *)
Definition Headers (r : R) (args : list string) : R :=
  if odd_len args then
    r_Errorf r "WithHeaders was not passed an even number of arguments"
  else
    set_header r
      (fold_left (fun h kv => Http.Add h (fst kv) (snd kv)) (pairs args)
                 (header r)).

(** The argument of [R.Body], by the case of its type switch. *)
Inductive body_arg : Type :=
| BodyNil
| BodyReader (content : string)
| BodyBytes (content : string)
| BodyValue (v : value).

(** [R.Body] *)
Definition Body `{Runtime} (r : R) (b : body_arg) : R :=
  match b with
  | BodyNil => Headers r ["Content-Type"; "application/json"]
  | BodyReader obj =>
      set_body (Headers r ["Content-Type"; "application/octet-stream"]) (Some obj)
  | BodyBytes obj =>
      set_body (Headers r ["Content-Type"; "application/octet-stream"]) (Some obj)
  | BodyValue obj =>
      let r := Headers r ["Content-Type"; "application/json"] in
      match json_Marshal obj with
      | Err e => r_AddError r (Some e)
      | Ok buf => set_body r (Some buf)
      end
  end.

(** [R.Put], [R.Post], [R.Patch] *)
Definition Put `{Runtime} (r : R) (b : body_arg) : R := Body (Meth r "PUT") b.
Definition Post `{Runtime} (r : R) (b : body_arg) : R := Body (Meth r "POST") b.
Definition Patch_ `{Runtime} (r : R) (b : Patch) : R :=
  Body (Meth r "PATCH") (BodyValue (VPatch b)).

(** [Client.UrlFor] *)
Definition Client_UrlFor `{Runtime} (c : Client) (args : list string)
  : result Url.URL :=
  ParseRequestURI (endpoint c ++ path_Join [APIPATH; path_Join args]).

(** [R.UrlFor] *)
Definition UrlFor `{Runtime} (c : Client) (r : R) (args : list string) : R :=
  match Client_UrlFor c args with
  | Err e => r_AddError r (Some e)
  | Ok res => set_uri r (Some res)
  end.

(** [R.UrlForM] *)
Definition UrlForM `{Runtime} (c : Client) (r : R) (m : Models.ModelValue)
           (rest : list string) : R :=
  let r := set_err r (Models.set_Key (Models.set_Model (err r) (Models.Prefix m))
                                     (Models.ModelKey m)) in
  UrlFor c r (app [Models.Prefix m; Models.ModelKey m] rest).

(** [R.List] *)
Definition List_ `{Runtime} (c : Client) (r : R) (prefix : string) : R :=
  UrlFor c (Get r) [prefix].

(** [R.PatchObj] *)
Definition PatchObj `{Runtime} (r : R) (old new : Models.ModelValue) : R :=
  match GenPatch old new (paranoid r) with
  | Err e => r_AddError r (Some e)
  | Ok b => Body (Meth r "PATCH") (BodyValue (VPatch b))
  end.

(** The message of [R.PatchTo] for two models that are not one entity. *)
Definition PatchTo_message (old new : Models.ModelValue) : string :=
  "Cannot patch from " ++ Models.GoType old ++ " to " ++ Models.GoType new ++
  ", or change keys from " ++ Models.ModelKey old ++ " to " ++
  Models.ModelKey new.

(** [R.PatchTo].  The source assigns [r.err.Model] twice, first the prefix
    and then the key. *)
Definition PatchTo `{Runtime} (c : Client) (r : R) (old new : Models.ModelValue)
  : R :=
  if negb (Models.Prefix old =? Models.Prefix new) ||
     negb (Models.ModelKey old =? Models.ModelKey new) then
    let r := set_err r (Models.set_Model (err r) (Models.Prefix old)) in
    let r := set_err r (Models.set_Model (err r) (Models.ModelKey old)) in
    r_Errorf r (PatchTo_message old new)
  else
    UrlForM c (PatchObj r old new) old [].

(** The [values] that [R.Params] builds from its arguments, starting from
    an empty [url.Values], and their encoding. *)
Definition Params_values (args : list string) : Url.Values :=
  fold_left (fun vs kv => Url.Add vs (fst kv) (snd kv)) (pairs args) [].

Definition Params_query (args : list string) : string :=
  Url.Encode (Params_values args).

(** [R.Params] *)
Definition Params (r : R) (args : list string) : R :=
  match uri r with
  | None => r_Errorf r "Cannot call WithParams before UrlFor or UrlForM"
  | Some u =>
      if odd_len args then
        r_Errorf r "WithParams was not passed an even number of arguments"
      else
        set_uri r (Some (Url.set_RawQuery u (Params_query args)))
  end.

(** [R.Filter].  The loop neither panics nor runs out of passes (see
    [FilterLoop_run_grammar] below), so the last case is never taken. *)
Definition Filter `{Runtime} (c : Client) (r : R) (prefix : string)
           (filterArgs : list string) : R :=
  let r := UrlFor c (Get r) [prefix] in
  match FilterLoop.run filterArgs with
  | Some (FilterLoop.Done finalParams) => Params r finalParams
  | Some (FilterLoop.Invalid msg) => r_Errorf r msg
  | Some FilterLoop.Panic | None => r
  end.

(** ** Execution *)

(** The destination [val] of [R.Do], by what [Do] asks of its type: nil, an
    [io.Writer], or another pointer, which may be a [models.Filler].  A
    destination comes with the error [json.Decoder.Decode] gives for a body
    when decoding into it (nil for none), a writer also with the error its
    writes give. *)
Inductive dest : Type :=
| DestNil
| DestWriter (write_error : option string)
             (decode_error : string -> option string)
| DestValue (decode_error : string -> option string) (filler : bool).

Definition is_Writer (val : dest) : bool :=
  match val with
  | DestWriter _ _ => true
  | _ => false
  end.

(** What [Do] did to its destination: nothing, [io.Copy] of the body into
    it, or [Decode] of the body into it. *)
Inductive dest_effect : Type :=
| Untouched
| Copied (content : string)
| Decoded (content : string).

(** The outcome of [R.Do]: the error it returns, the builder as it leaves
    it, the requests it handed to the network, what happened to the
    destination, and whether [Fill] was called on it. *)
Record DoResult : Type := {
  ret : option Models.Error;
  after : R;
  sent : list Http.Request;
  effect : dest_effect;
  filled : bool
}.

(** [Client.Token] *)
Definition Token (c : Client) : string :=
  match token c with
  | None => EmptyString
  | Some t => Models.Token t
  end.

(** [Client.Authorize] *)
Definition Authorize (c : Client) (req : Http.Request) : Http.Request :=
  if Http.Get (Http.ReqHeader req) "Authorization" =? EmptyString then
    Http.set_ReqHeader req
      (Http.Set_ (Http.ReqHeader req) "Authorization" ("Bearer " ++ Token c))
  else req.

(** [http.NewRequest]: an empty method means GET. *)
Definition NewRequest `{Runtime} (method : string) (u : Url.URL)
           (body : option string) : result Http.Request :=
  match NewRequest_error method u with
  | Some e => Err e
  | None =>
      Ok {| Http.Method := if method =? EmptyString then "GET" else method;
            Http.URL := u;
            Http.ReqHeader := [];
            Http.ReqBody := body |}
  end.

(** [wr, ok := val.(io.Writer); ok && resp.StatusCode < 300] *)
Definition copy_to (val : dest) (status : Z) : option (option string) :=
  match val with
  | DestWriter write_error _ =>
      if (status <? 300)%Z then Some write_error else None
  | _ => None
  end.

(** The part of [R.Do] after the response has arrived (client.go 415-465). *)
Definition Do_response `{Runtime} (r : R) (val : dest) (req : Http.Request)
           (resp : Http.Response) : DoResult :=
  let finish r ret eff fl :=
    {| ret := ret; after := r; sent := [req]; effect := eff; filled := fl |} in
  let r := set_Resp r (Some resp) in
  let status := Http.StatusCode resp in
  match copy_to val status with
  | Some write_error =>
      let r := r_AddError r write_error in
      finish r (Models.HasError (err r)) (Copied (Http.RespBody resp)) false
  | None =>
    if method r =? "HEAD" then
      if (status <=? 300)%Z then finish r None Untouched false
      else
        let r := r_Errorf r (StatusText status) in
        let r := set_err r (Models.set_Code (err r) status) in
        finish r (Some (err r)) Untouched false
    else
      let ct := Http.Get (Http.RespHeader resp) "Content-Type" in
      let mt := ParseMediaType ct in
      if mt =? "application/json" then
        if (status >=? 400)%Z then
          match json_DecodeError (Http.RespBody resp) with
          | Err e =>
              let r := set_err r (Models.set_Code (err r) status) in
              let r := r_AddError r (Some e) in
              finish r (Some (err r)) Untouched false
          | Ok res => finish r (Some res) Untouched false
          end
        else
          (* the [err] still in scope is the one of [r.c.Do(req)]: nil *)
          let transport_err : option string := None in
          let decode decode_error :=
            if negb (Http.ContentLength resp =? 0)%Z
            then (r_AddError r (decode_error (Http.RespBody resp)),
                  Decoded (Http.RespBody resp))
            else (r, Untouched) in
          match val with
          | DestNil => finish r (Models.HasError (err r)) Untouched false
          | DestWriter _ decode_error =>
              let (r, eff) := decode decode_error in
              finish r (Models.HasError (err r)) eff false
          | DestValue decode_error filler =>
              let (r, eff) := decode decode_error in
              finish r (Models.HasError (err r)) eff
                     (filler && match transport_err with
                                | Some _ => true
                                | None => false
                                end)
          end
      else
        (* no decoder: the body is drained and logged *)
        let r := r_Errorf r ("Cannot handle content-type " ++ ct) in
        let r := r_Errorf r ("No decoder for content-type " ++ ct) in
        finish r (Some (err r)) Untouched false
  end.

(** The headers [R.Do] adds before it builds the request (client.go
    393-401). *)
Definition Do_headers (r : R) (val : dest) : R :=
  let r :=
    if negb (traceLvl r =? EmptyString) then
      Headers (Headers r ["X-Log-Request"; traceLvl r])
              ["X-Log-Token"; traceToken r]
    else r in
  let r := Headers r ["Accept"; "application/json"] in
  if is_Writer val then Headers r ["Accept"; "application/octet-stream"]
  else r.

(** [R.Do] *)
Definition Do `{Runtime} (c : Client) (r : R) (val : dest) : DoResult :=
  let stop r :=
    {| ret := Some (err r); after := r; sent := []; effect := Untouched;
       filled := false |} in
  match uri r with
  | None => stop (r_Errorf r "No URL to talk to")
  | Some u =>
    if closed c then stop (r_Errorf r "Connection Closed")
    else if Models.ContainsError (err r) then stop r
    else
      let r := Do_headers r val in
      match NewRequest (method r) u (body r) with
      | Err e => stop (r_AddError r (Some e))
      | Ok req =>
          (* [req.Header = r.header]: one map, which [Authorize] writes to *)
          let req := Authorize c (Http.set_ReqHeader req (header r)) in
          let r := set_header (set_Req r (Some req)) (Http.ReqHeader req) in
          match RoundTrip req with
          | Err e =>
              let r := r_AddError r (Some e) in
              {| ret := Some (err r); after := r; sent := [req];
                 effect := Untouched; filled := false |}
          | Ok resp => Do_response r val req resp
          end
      end
  end.

(** The request [Do] hands to the network for a builder with URL [u] that
    passes its checks: [Do] unfolded up to [r.c.Authorize(req)]. *)
Definition Do_request (c : Client) (r : R) (val : dest) (u : Url.URL)
  : Http.Request :=
  Authorize c
    {| Http.Method := if method r =? EmptyString then "GET" else method r;
       Http.URL := u;
       Http.ReqHeader := header (Do_headers r val);
       Http.ReqBody := body r |}.

(** ** Sessions *)

(** [Client.Close].  The send on [closer] is taken by the session's
    background goroutine; on a channel that is already closed it panics
    ([None]). *)
Definition Close (c : Client) : option Client :=
  match closer c with
  | ChanClosed => None
  | ChanOpen =>
      Some {| endpoint := endpoint c; username := username c;
              password := password c; token := token c;
              closer := ChanClosed; closed := true;
              client_traceLvl := client_traceLvl c;
              client_traceToken := client_traceToken c |}
  end.

(** [Client.ExistsModel] *)
Definition ExistsModel `{Runtime} (c : Client) (prefix key : string)
  : bool * option Models.Error :=
  match ret (Do c (UrlFor c (Head (Req c)) [prefix; key]) DestNil) with
  | Some e =>
      if (Models.Code e =? Http.StatusNotFound)%Z then (false, None)
      else (false, Some e)
  | None => (true, None)
  end.

(** The destination [&token] of the two token requests. *)
Definition token_dest `{Runtime} : dest :=
  DestValue (fun content => match json_DecodeToken content with
                            | Ok _ => None
                            | Err e => Some e
                            end) false.

(** The [models.UserToken] a [Do(&token)] leaves in [token]: what was
    decoded, or the zero value it started as. *)
Definition token_of `{Runtime} (res : DoResult) : Models.UserToken :=
  match effect res with
  | Decoded content =>
      match json_DecodeToken content with
      | Ok t => t
      | Err _ => {| Models.Token := EmptyString |}
      end
  | _ => {| Models.Token := EmptyString |}
  end.

(** The request [Client.reauth] builds, and [reauth] itself. *)
Definition reauth_request `{Runtime} (c : Client) : R :=
  Params (UrlFor c (Req c) ["users"; username c; "token"]) ["ttl"; "600"].

Definition reauth `{Runtime} (c : Client) : DoResult :=
  Do c (reauth_request c) token_dest.

(** The request the first authentication of [UserSession] builds
    (client.go 725-728). *)
Definition login_request `{Runtime} (c : Client) : R :=
  Headers (UrlFor c (Req c) ["users"; username c; "token"])
          ["Authorization";
           "Basic " ++ base64_EncodeToString (username c ++ ":" ++ password c)].

(** The [Client] literal of [UserSession] (client.go 715-722). *)
Definition new_client (endpoint username password : string) : Client :=
  {| endpoint := endpoint; username := username; password := password;
     token := None; closer := ChanOpen; closed := false;
     client_traceLvl := EmptyString; client_traceToken := EmptyString |}.

(** [UserSession], up to the start of the renewal goroutine: the requests
    sent, and the client or the error of the first authentication. *)
Definition UserSession `{Runtime} (endpoint username password : string)
  : list Http.Request * (Client + Models.Error) :=
  let c := new_client endpoint username password in
  let res := Do c (login_request c) token_dest in
  match ret res with
  | Some e => (sent res, inr e)
  | None => (sent res, inl (set_token c (Some (token_of res))))
  end.

(** The period of the renewal ticker, in seconds. *)
Definition renewal_period : Z := 300.

(** What wakes the renewal goroutine of [UserSession] in its [select]. *)
Inductive wakeup : Type := CloserFired | Tick.

(** How one turn of its loop ends: the goroutine returns, [log.Fatalf]
    ends the process, or the loop goes on with the new token installed. *)
Inductive renewal : Type :=
| Returned
| Fatal (e : Models.Error)
| Renewed (c : Client).

(** One turn of the loop of the renewal goroutine (client.go 733-747). *)
Definition renew `{Runtime} (c : Client) (w : wakeup) : renewal :=
  match w with
  | CloserFired => Returned
  | Tick =>
      let res := reauth c in
      match ret res with
      | Some e => Fatal e
      | None => Renewed (set_token c (Some (token_of res)))
      end
  end.

(** ** A transport stub

    A [Runtime] whose network answers by a given function, a session on it
    and a few responses: the fixtures of the examples below. *)

Module Stub.

Definition nonempty (s : string) : bool := negb (s =? EmptyString).

(** Joins the non-empty elements with slashes; no cleaning. *)
Definition join (elems : list string) : string :=
  String.concat "/" (filter nonempty elems).

(** Keeps the whole string as the path. *)
Definition parse (s : string) : result Url.URL :=
  if nonempty s
  then Ok {| Url.Scheme := EmptyString; Url.Host := EmptyString;
             Url.Path := s; Url.RawQuery := EmptyString |}
  else Err "empty url".

Definition status_text (code : Z) : string :=
  if (code =? 404)%Z then "Not Found"
  else if (code =? 500)%Z then "Internal Server Error"
  else if (code =? 302)%Z then "Found"
  else EmptyString.

Definition runtime (respond : Http.Request -> result Http.Response)
  : Runtime :=
  {| path_Join := join;
     ParseRequestURI := parse;
     NewRequest_error := fun _ _ => None;
     RoundTrip := respond;
     ParseMediaType := fun ct => ct;
     StatusText := status_text;
     base64_EncodeToString := fun s => s;
     json_Marshal := fun _ => Ok "{}";
     json_DecodeError := fun content =>
       Ok {| Models.Model := EmptyString; Models.Key := EmptyString;
             Models.Type_ := "API_ERROR"; Models.Messages := [content];
             Models.Code := 0 |};
     json_DecodeToken := fun content => Ok {| Models.Token := content |};
     GenPatch := fun _ _ _ => Ok [] |}.

(** A response with the given status, content type and body. *)
Definition response (status : Z) (ct content : string) : Http.Response :=
  {| Http.StatusCode := status;
     Http.RespHeader := Http.Add [] "Content-Type" ct;
     Http.ContentLength := Z.of_nat (String.length content);
     Http.RespBody := content |}.

(** A server that answers every request the same way. *)
Definition always (resp : Http.Response) : Runtime :=
  runtime (fun _ => Ok resp).

(** A network that must not be reached. *)
Definition unreachable : Runtime :=
  runtime (fun _ => Err "unexpected network call").

(** An open token session, as [TokenSession] makes it. *)
Definition client : Client :=
  {| endpoint := "https://127.0.0.1:8092";
     username := EmptyString;
     password := EmptyString;
     token := Some {| Models.Token := "secret" |};
     closer := ChanOpen;
     closed := false;
     client_traceLvl := EmptyString;
     client_traceToken := EmptyString |}.

(** The same session after [Close]. *)
Definition closed_client : Client :=
  {| endpoint := "https://127.0.0.1:8092";
     username := EmptyString;
     password := EmptyString;
     token := Some {| Models.Token := "secret" |};
     closer := ChanClosed;
     closed := true;
     client_traceLvl := EmptyString;
     client_traceToken := EmptyString |}.

Definition machine (key : string) : Models.ModelValue :=
  {| Models.Prefix := "machines"; Models.ModelKey := key;
     Models.GoType := "*models.Machine"; Models.Fields := EmptyString |}.

Definition accepts_anything : string -> option string := fun _ => None.

(** The URL the stub resolves for the machines collection. *)
Definition machines_url : Url.URL :=
  {| Url.Scheme := EmptyString; Url.Host := EmptyString;
     Url.Path := "https://127.0.0.1:8092/api/v3/machines";
     Url.RawQuery := EmptyString |}.

(** The URL the stub resolves for the machine foo. *)
Definition machine_foo_url : Url.URL :=
  {| Url.Scheme := EmptyString; Url.Host := EmptyString;
     Url.Path := "https://127.0.0.1:8092/api/v3/machines/foo";
     Url.RawQuery := EmptyString |}.

(** [c.Req().UrlFor("machines", "foo")] *)
Definition get_machine_foo (c : Client) : R :=
  UrlFor (H := unreachable) c (Req c) ["machines"; "foo"].

(** The URL the stub resolves for the token of user rocketskates. *)
Definition token_url : Url.URL :=
  {| Url.Scheme := EmptyString; Url.Host := EmptyString;
     Url.Path := "https://127.0.0.1:8092/api/v3/users/rocketskates/token";
     Url.RawQuery := EmptyString |}.

End Stub.

(** ** The rest of the builder and of the sessions *)

(** [Client.Trace], [Client.TraceToken]: the session-wide defaults. *)
Definition Client_Trace (c : Client) (lvl : string) : Client :=
  {| endpoint := endpoint c; username := username c; password := password c;
     token := token c; closer := closer c; closed := closed c;
     client_traceLvl := lvl; client_traceToken := client_traceToken c |}.

Definition Client_TraceToken (c : Client) (t : string) : Client :=
  {| endpoint := endpoint c; username := username c; password := password c;
     token := token c; closer := closer c; closed := closed c;
     client_traceLvl := client_traceLvl c; client_traceToken := t |}.

(** [TokenSession]: it cannot fail; its goroutine only waits for [Close]. *)
Definition TokenSession (endpoint token : string) : Client :=
  {| endpoint := endpoint; username := EmptyString; password := EmptyString;
     token := Some {| Models.Token := token |}; closer := ChanOpen;
     closed := false; client_traceLvl := EmptyString;
     client_traceToken := EmptyString |}.

(** The calls that can be chained on an [R]: every method of [R] that
    returns the [R]. *)
Inductive call : Type :=
| CallTrace (lvl : string)
| CallTraceToken (t : string)
| CallMeth (v : string)
| CallGet
| CallList (prefix : string)
| CallDel
| CallHead
| CallPut (b : body_arg)
| CallPatch (b : Patch)
| CallParanoidPatch
| CallPatchObj (old new : Models.ModelValue)
| CallPatchTo (old new : Models.ModelValue)
| CallPost (b : body_arg)
| CallUrlFor (args : list string)
| CallUrlForM (m : Models.ModelValue) (rest : list string)
| CallParams (args : list string)
| CallFilter (prefix : string) (filterArgs : list string)
| CallHeaders (args : list string)
| CallBody (b : body_arg).

Definition apply_call `{Runtime} (c : Client) (r : R) (k : call) : R :=
  match k with
  | CallTrace lvl => Trace r lvl
  | CallTraceToken t => TraceToken r t
  | CallMeth v => Meth r v
  | CallGet => Get r
  | CallList prefix => List_ c r prefix
  | CallDel => Del r
  | CallHead => Head r
  | CallPut b => Put r b
  | CallPatch b => Patch_ r b
  | CallParanoidPatch => ParanoidPatch r
  | CallPatchObj old new => PatchObj r old new
  | CallPatchTo old new => PatchTo c r old new
  | CallPost b => Post r b
  | CallUrlFor args => UrlFor c r args
  | CallUrlForM m rest => UrlForM c r m rest
  | CallParams args => Params r args
  | CallFilter prefix filterArgs => Filter c r prefix filterArgs
  | CallHeaders args => Headers r args
  | CallBody b => Body r b
  end.

(** A chain of calls, left to right: [r.A().B().C()]. *)
Definition chain `{Runtime} (c : Client) (r : R) (calls : list call) : R :=
  fold_left (apply_call c) calls r.

(** What the client asks of the [models] package and of [encoding/json]
    to make, copy and decode models. *)
Class ModelCodec : Type := {
  (** [models.New] *)
  models_New : string -> result Models.ModelValue;
  (** [models.Clone] *)
  models_Clone : Models.ModelValue -> Models.ModelValue;
  (** [json.Decoder.Decode] into a pointer to the given model *)
  json_DecodeModel : Models.ModelValue -> string -> result Models.ModelValue
}.

(** The destination [&m] for a variable [m] of type [models.Model]: a
    pointer to an interface value has no methods, so it is no
    [models.Filler]. *)
Definition model_dest `{ModelCodec} (m : Models.ModelValue) : dest :=
  DestValue (fun content => match json_DecodeModel m content with
                            | Ok _ => None
                            | Err e => Some e
                            end) false.

(** The model a [Do(&m)] that returned nil leaves in [m]: what the body
    decoded to, or [m] as it was when nothing was decoded. *)
Definition model_of `{ModelCodec} (m : Models.ModelValue) (res : DoResult)
  : Models.ModelValue :=
  match effect res with
  | Decoded content =>
      match json_DecodeModel m content with
      | Ok m' => m'
      | Err _ => m
      end
  | _ => m
  end.

(** [R.Fill] and [R.Delete] (client.go 183-191, 200-208).  Both assign
    [r.err.Model] twice, the prefix and then the key. *)
Definition guarded_by_key `{Runtime} `{ModelCodec} (verb : string)
           (prepare : R -> R) (c : Client) (r : R) (m : Models.ModelValue)
  : DoResult :=
  let r := set_err r (Models.set_Model (err r) (Models.Prefix m)) in
  let r := set_err r (Models.set_Model (err r) (Models.ModelKey m)) in
  if Models.ModelKey m =? EmptyString then
    let r := r_Errorf r ("Cannot " ++ verb ++ " " ++ Models.Prefix m ++
                         " with an empty key") in
    {| ret := Some (err r); after := r; sent := []; effect := Untouched;
       filled := false |}
  else Do c (UrlForM c (prepare r) m []) (model_dest m).

Definition Fill `{Runtime} `{ModelCodec} (c : Client) (r : R)
           (m : Models.ModelValue) : DoResult :=
  guarded_by_key "Fill" Get c r m.

Definition Delete `{Runtime} `{ModelCodec} (c : Client) (r : R)
           (m : Models.ModelValue) : DoResult :=
  guarded_by_key "Delete" Del c r m.

(** [Client.PatchToFull] and [Client.PatchTo], with the requests sent. *)
Definition PatchToFull `{Runtime} `{ModelCodec} (c : Client)
           (old new : Models.ModelValue) (paranoid : bool)
  : (Models.ModelValue * option Models.Error) * list Http.Request :=
  let res := models_Clone old in
  let r := Req c in
  let r := if paranoid then ParanoidPatch r else r in
  let d := Do c (PatchTo c r old new) (model_dest res) in
  match ret d with
  | Some e => ((old, Some e), sent d)
  | None => ((model_of res d, None), sent d)
  end.

Definition Client_PatchTo `{Runtime} `{ModelCodec} (c : Client)
           (old new : Models.ModelValue)
  : (Models.ModelValue * option Models.Error) * list Http.Request :=
  PatchToFull c old new false.

(** [Client.PutModel] *)
Definition PutModel `{Runtime} `{ModelCodec} (c : Client)
           (obj : Models.ModelValue) : DoResult :=
  Do c (UrlForM c (Put (Req c) (BodyValue (VModel obj))) obj [])
     (model_dest obj).

(** The blob calls.  The destination of [GetBlob] is the caller's writer,
    given by the errors writing and decoding into it give; for [ListBlobs]
    and [PostBlob], [decode_error] is what decoding a body into their local
    result gives. *)
Definition blob_path `{Runtime} (at_ : list string) : list string :=
  [path_Join ["/"; path_Join at_]].

Definition ListBlobs `{Runtime} (c : Client) (at_ : string)
           (params : list string) (decode_error : string -> option string)
  : DoResult :=
  Do c (Params (UrlFor c (Req c) [path_Join ["/"; at_]]) params)
     (DestValue decode_error false).

Definition GetBlob `{Runtime} (c : Client) (write_error : option string)
           (decode_error : string -> option string) (at_ : list string)
  : DoResult :=
  Do c (UrlFor c (Req c) (blob_path at_)) (DestWriter write_error decode_error).

Definition PostBlob `{Runtime} (c : Client) (blob : string)
           (at_ : list string) (decode_error : string -> option string)
  : DoResult :=
  Do c (UrlFor c (Post (Req c) (BodyReader blob)) (blob_path at_))
     (DestValue decode_error false).

Definition DeleteBlob `{Runtime} (c : Client) (at_ : list string) : DoResult :=
  Do c (UrlFor c (Del (Req c)) (blob_path at_)) DestNil.

(** An accumulator that has only gained messages. *)
Definition grows (e e' : Models.Error) : Prop :=
  exists more, Models.Messages e' = app (Models.Messages e) more.

(** ** Filter clauses written as tokens *)

(** The tokens the comment of [R.Filter] (client.go 255-273) gives for each
    kind of clause. *)
Definition tokens_of (cl : FilterGrammar.clause) : list string :=
  match cl with
  | FilterGrammar.Reverse => ["reverse"]
  | FilterGrammar.OneValue keyword v => [keyword; v]
  | FilterGrammar.Compare index op v => [index; op; v]
  | FilterGrammar.Range index op lower upper => [index; op; lower; upper]
  end.

(** An index name is any token that is not one of the four words. *)
Definition is_index (t : string) : bool :=
  negb (t =? "reverse") && negb (FilterGrammar.keyword_with_value t).

(** A clause as that comment allows it. *)
Definition documented (cl : FilterGrammar.clause) : bool :=
  match cl with
  | FilterGrammar.Reverse => true
  | FilterGrammar.OneValue keyword _ => FilterGrammar.keyword_with_value keyword
  | FilterGrammar.Compare index op _ =>
      is_index index && existsb (String.eqb op) FilterGrammar.one_value_ops
  | FilterGrammar.Range index op _ _ =>
      is_index index && existsb (String.eqb op) FilterGrammar.two_value_ops
  end.

(** The [key=value] item of one pair of [Params] in the query string. *)
Definition query_item (kv : string * string) : string :=
  Url.QueryEscape (fst kv) ++ "=" ++ Url.QueryEscape (snd kv).

(** The keys of a [url.Values] ascend strictly. *)
Definition ascending (keys : list string) : Prop :=
  Sorted.Sorted (fun a b => String.compare a b = Lt) keys.

(** ** More fixtures *)

Module Fixtures.

(** A codec that knows machines, copies by value and decodes any body
    into the model it is given. *)
Definition codec : ModelCodec :=
  {| models_New := fun prefix =>
       if prefix =? "machines" then Ok (Stub.machine EmptyString)
       else Err "No such Model";
     models_Clone := fun m => m;
     json_DecodeModel := fun m content =>
       Ok {| Models.Prefix := Models.Prefix m;
             Models.ModelKey := Models.ModelKey m;
             Models.GoType := Models.GoType m;
             Models.Fields := content |} |}.

(** A runtime whose [json.Marshal] rejects every value. *)
Definition no_marshal : Runtime :=
  {| path_Join := Stub.join;
     ParseRequestURI := Stub.parse;
     NewRequest_error := fun _ _ => None;
     RoundTrip := fun _ => Err "unexpected network call";
     ParseMediaType := fun ct => ct;
     StatusText := Stub.status_text;
     base64_EncodeToString := fun s => s;
     json_Marshal := fun _ => Err "json: unsupported type";
     json_DecodeError := fun _ => Err "unexpected";
     json_DecodeToken := fun _ => Err "unexpected";
     GenPatch := fun _ _ _ => Ok [] |}.

(** [c.Req().UrlFor("machines", "foo").Headers("Authorization", v)] *)
Definition with_authorization (c : Client) (v : string) : R :=
  Headers (Stub.get_machine_foo c) ["Authorization"; v].

End Fixtures.

(** ** The loop and the grammar, side by side *)

(** What the loop must end with when the grammar accepts or rejects the
    tokens still to be read, [acc] being the parameters built so far. *)
Definition agrees (o : FilterLoop.outcome) (acc : list string)
           (g : option (list FilterGrammar.clause)) : Prop :=
  match g with
  | Some cs =>
      o = FilterLoop.Done (app acc (concat (map FilterGrammar.emit cs)))
  | None => exists msg, o = FilterLoop.Invalid msg
  end.

(** A name in title case: an upper-case ASCII letter followed by
    lower-case ASCII letters only. *)
Definition titled (name : string) : bool :=
  match name with
  | EmptyString => false
  | String c rest =>
      Strings.is_upper c && Http.string_forallb Strings.is_lower rest
  end.

(** * Properties *)

(** ** The filter loop against the grammar *)

Section FilterRefinement.

Import FilterLoop.

Lemma loop_unfold fuel filterArgs i finalParams :
  loop fuel filterArgs i finalParams =
  if negb (i <? length filterArgs)%nat then Some (Done finalParams) else
  match fuel with
  | O => None
  | S fuel' =>
    match at_ filterArgs i with
    | None => Some Panic
    | Some filter =>
      if filter =? "reverse" then
        loop fuel' filterArgs (i + 1) (app finalParams [filter; "true"])
      else if is_one_value_keyword filter then
        if (length filterArgs - i <? 2)%nat then
          Some (Invalid ("Invalid Filter: " ++ filter ++
                         " requires exactly one parameter"))
        else
          match at_ filterArgs (i + 1) with
          | None => Some Panic
          | Some v =>
              loop fuel' filterArgs (i + 2) (app finalParams [filter; v])
          end
      else
        if (length filterArgs - i <? 2)%nat then
          Some (Invalid ("Invalid Filter: " ++ filter ++
                         " requires an op and at least 1 parameter"))
        else
          match at_ filterArgs (i + 1) with
          | None => Some Panic
          | Some rawop =>
            let op := Strings.Title (Strings.ToLower rawop) in
            let i := i + 2 in
            if is_unary_op op then
              if (length filterArgs - i <? 1)%nat then
                Some (Invalid ("Invalid Filter: " ++ filter ++ " op " ++ op ++
                               " requires 1 parameter"))
              else
                match at_ filterArgs i with
                | None => Some Panic
                | Some v =>
                    loop fuel' filterArgs (i + 1)
                         (app finalParams [filter; op ++ "(" ++ v ++ ")"])
                end
            else if is_binary_op op then
              if (length filterArgs - i <? 2)%nat then
                Some (Invalid ("Invalid Filter: " ++ filter ++ " op " ++ op ++
                               " requires 2 parameters"))
              else
                match at_ filterArgs i, at_ filterArgs (i + 1) with
                | Some lo, Some hi =>
                    loop fuel' filterArgs (i + 2)
                         (app finalParams
                            [filter; op ++ "(" ++ lo ++ "," ++ hi ++ ")"])
                | _, _ => Some Panic
                end
            else
              Some (Invalid ("Invalid Filter " ++ filter ++
                             ": unknown op " ++ op))
          end
    end
  end.
Proof. destruct fuel; reflexivity. Qed.

(** Reading [k] tokens past a prefix [pre] reads the [k]-th token of what
    follows it. *)
Lemma at_after (pre rest : list string) (k : nat) :
  at_ (app pre rest) (length pre + k) = nth_error rest k.
Proof.
  unfold at_. rewrite nth_error_app2 by lia.
  f_equal. lia.
Qed.

Lemma keyword_agree t :
  is_one_value_keyword t = FilterGrammar.keyword_with_value t.
Proof.
  unfold is_one_value_keyword, FilterGrammar.keyword_with_value. simpl.
  now rewrite orb_false_r, orb_assoc.
Qed.

Lemma unary_agree op :
  is_unary_op op = existsb (String.eqb op) FilterGrammar.one_value_ops.
Proof.
  unfold is_unary_op. simpl.
  now rewrite orb_false_r, !orb_assoc.
Qed.

Lemma binary_agree op :
  is_binary_op op = existsb (String.eqb op) FilterGrammar.two_value_ops.
Proof.
  unfold is_binary_op. simpl.
  now rewrite orb_false_r.
Qed.

(** *** The code's [Title (ToLower _)] against the match ignoring case *)

Lemma ascii_eqb_N (a b : ascii) :
  Ascii.eqb a b = (N_of_ascii a =? N_of_ascii b)%N.
Proof.
  destruct (Ascii.eqb_spec a b) as [->|Hne].
  - now rewrite N.eqb_refl.
  - symmetry. apply N.eqb_neq. intros E. apply Hne.
    rewrite <- (ascii_N_embedding a), <- (ascii_N_embedding b).
    now rewrite E.
Qed.

Lemma lower_byte_N (a : ascii) :
  N_of_ascii (Strings.lower_byte a) =
  if (65 <=? N_of_ascii a)%N && (N_of_ascii a <=? 90)%N
  then (N_of_ascii a + 32)%N else N_of_ascii a.
Proof.
  unfold Strings.lower_byte, Strings.is_upper, Strings.between.
  change (N_of_ascii "A") with 65%N. change (N_of_ascii "Z") with 90%N.
  destruct ((65 <=? N_of_ascii a)%N && (N_of_ascii a <=? 90)%N) eqn:E;
    [|reflexivity].
  apply andb_true_iff in E. destruct E as [_ E]. apply N.leb_le in E.
  apply N_ascii_embedding. lia.
Qed.

Lemma upper_byte_N (a : ascii) :
  N_of_ascii (Strings.upper_byte a) =
  if (97 <=? N_of_ascii a)%N && (N_of_ascii a <=? 122)%N
  then (N_of_ascii a - 32)%N else N_of_ascii a.
Proof.
  unfold Strings.upper_byte, Strings.is_lower, Strings.between.
  change (N_of_ascii "a") with 97%N. change (N_of_ascii "z") with 122%N.
  destruct ((97 <=? N_of_ascii a)%N && (N_of_ascii a <=? 122)%N) eqn:E;
    [|reflexivity].
  apply andb_true_iff in E. destruct E as [_ E]. apply N.leb_le in E.
  apply N_ascii_embedding. lia.
Qed.

Ltac split_N_tests :=
  repeat match goal with
         | |- context [(?x <=? ?y)%N] => destruct (N.leb_spec x y)
         | |- context [(?x =? ?y)%N] => destruct (N.eqb_spec x y)
         | H : context [(?x <=? ?y)%N] |- _ => destruct (N.leb_spec x y)
         end;
  cbn [andb orb negb] in *; try reflexivity; try discriminate; try lia.

(** After the first letter: the lowered byte is the lower-case letter [c]
    exactly when the byte is [c] in either case. *)
Lemma lowered_matches (a c : ascii) :
  Strings.is_lower c = true ->
  Ascii.eqb (Strings.lower_byte a) c =
  FilterGrammar.same_byte_ignoring_case a c.
Proof.
  unfold Strings.is_lower, Strings.between.
  change (N_of_ascii "a") with 97%N. change (N_of_ascii "z") with 122%N.
  intros Hc. rewrite ascii_eqb_N, lower_byte_N.
  unfold FilterGrammar.same_byte_ignoring_case. cbv zeta.
  generalize dependent (N_of_ascii c). generalize (N_of_ascii a).
  intros x y Hc. split_N_tests.
Qed.

(** The first letter: the lowered and then titled byte is the upper-case
    letter [c] exactly when the byte is [c] in either case. *)
Lemma titled_matches (a c : ascii) :
  Strings.is_upper c = true ->
  Ascii.eqb (Strings.upper_byte (Strings.lower_byte a)) c =
  FilterGrammar.same_byte_ignoring_case a c.
Proof.
  unfold Strings.is_upper, Strings.between.
  change (N_of_ascii "A") with 65%N. change (N_of_ascii "Z") with 90%N.
  intros Hc. rewrite ascii_eqb_N, upper_byte_N, lower_byte_N.
  unfold FilterGrammar.same_byte_ignoring_case. cbv zeta.
  generalize dependent (N_of_ascii c). generalize (N_of_ascii a).
  intros x y Hc. split_N_tests.
Qed.

Lemma lower_letter_joins (c : ascii) :
  Strings.is_lower c = true -> Strings.isSeparator c = false.
Proof.
  intros Hc. unfold Strings.isSeparator, Strings.is_alnum. rewrite Hc.
  rewrite orb_true_r. cbn. now destruct (N_of_ascii c <=? 127)%N.
Qed.

Lemma string_eqb_cons (a b : ascii) (s t : string) :
  (String a s =? String b t) = Ascii.eqb a b && (s =? t).
Proof. cbn. now destruct (Ascii.eqb a b). Qed.

(** Inside a word, [Title] changes nothing: what [Title (ToLower s)] has
    after a letter equals a string of lower-case letters exactly when [s]
    does, ignoring case. *)
Lemma tail_matches (t : string) :
  forall (s : string) (prev : ascii),
    Http.string_forallb Strings.is_lower t = true ->
    Strings.isSeparator prev = false ->
    (Strings.Title_from prev (Strings.ToLower s) =? t) =
    FilterGrammar.equal_ignoring_case s t.
Proof.
  induction t as [|c t IH]; intros s prev Hlow Hprev.
  - now destruct s.
  - destruct s as [|a s]; [reflexivity|].
    cbn [Http.string_forallb] in Hlow. apply andb_true_iff in Hlow.
    destruct Hlow as [Hc Ht].
    cbn [Strings.ToLower Strings.Title_from FilterGrammar.equal_ignoring_case].
    rewrite Hprev, string_eqb_cons, (lowered_matches a c Hc).
    destruct (FilterGrammar.same_byte_ignoring_case a c) eqn:E;
      [|reflexivity].
    cbn [andb]. apply IH; [exact Ht|].
    rewrite <- (lowered_matches a c Hc) in E.
    apply Ascii.eqb_eq in E. rewrite E. now apply lower_letter_joins.
Qed.

(** [Title (ToLower s)] is a given name in title case exactly when [s] is
    that name in some case. *)
Lemma title_matches (name s : string) :
  titled name = true ->
  (Strings.Title (Strings.ToLower s) =? name) =
  FilterGrammar.equal_ignoring_case s name.
Proof.
  destruct name as [|c t]; [discriminate|].
  cbn [titled]. rewrite andb_true_iff. intros [Hc Ht].
  destruct s as [|a s]; [reflexivity|].
  unfold Strings.Title.
  cbn [Strings.ToLower Strings.Title_from FilterGrammar.equal_ignoring_case].
  change (Strings.isSeparator " ") with true. cbv iota.
  rewrite string_eqb_cons, (titled_matches a c Hc).
  destruct (FilterGrammar.same_byte_ignoring_case a c) eqn:E; [|reflexivity].
  cbn [andb]. apply tail_matches; [exact Ht|].
  unfold FilterGrammar.same_byte_ignoring_case in E. cbv zeta in E.
  apply lower_letter_joins.
  unfold Strings.is_lower, Strings.between.
  change (N_of_ascii "a") with 97%N. change (N_of_ascii "z") with 122%N.
  rewrite lower_byte_N.
  unfold Strings.is_upper, Strings.between in Hc.
  change (N_of_ascii "A") with 65%N in Hc.
  change (N_of_ascii "Z") with 90%N in Hc.
  generalize dependent (N_of_ascii c). generalize (N_of_ascii a).
  intros x y Hc E.
  apply andb_true_iff in Hc. destruct Hc as [Hc1 Hc2].
  apply N.leb_le in Hc1. apply N.leb_le in Hc2.
  repeat match goal with
         | H : context [(?p =? ?q)%N] |- _ => destruct (N.eqb_spec p q)
         | H : context [(?p <=? ?q)%N] |- _ => destruct (N.leb_spec p q)
         | |- context [(?p <=? ?q)%N] => destruct (N.leb_spec p q)
         end;
    cbn [andb orb] in *; try reflexivity; try discriminate; try lia.
Qed.

(** The operator the grammar finds for a token is the one the code's
    normal form of the token is equal to. *)
Lemma operator_found (names : list string) (rawop : string) :
  forallb titled names = true ->
  match FilterGrammar.operator names rawop with
  | Some name =>
      existsb (String.eqb (Strings.Title (Strings.ToLower rawop))) names = true
      /\ Strings.Title (Strings.ToLower rawop) = name
  | None =>
      existsb (String.eqb (Strings.Title (Strings.ToLower rawop))) names = false
  end.
Proof.
  unfold FilterGrammar.operator.
  induction names as [|n names IH]; intros Htitled; [reflexivity|].
  cbn [forallb] in Htitled. apply andb_true_iff in Htitled.
  destruct Htitled as [Hn Hrest].
  cbn [find existsb].
  rewrite (title_matches n rawop Hn).
  destruct (FilterGrammar.equal_ignoring_case rawop n) eqn:E.
  - split; [reflexivity|].
    rewrite <- (title_matches n rawop Hn) in E. now apply String.eqb_eq.
  - cbn [orb]. now apply IH.
Qed.

Lemma agrees_cons o acc c g :
  agrees o (app acc (FilterGrammar.emit c)) g ->
  agrees o acc (option_map (cons c) g).
Proof.
  destruct g as [cs|]; simpl; auto.
  intros ->. now rewrite <- app_assoc.
Qed.

(** The loop resumed at token [length pre + length mid] of
    [pre ++ mid ++ rest] is the loop started on [rest] behind the longer
    prefix [pre ++ mid]. *)
Lemma loop_shift fuel (pre mid rest : list string) n acc :
  n = (length pre + length mid)%nat ->
  loop fuel (app pre (app mid rest)) n acc =
  loop fuel (app (app pre mid) rest) (length (app pre mid)) acc.
Proof.
  intros ->. now rewrite app_assoc, length_app.
Qed.

Lemma remaining (pre rest : list string) k :
  (length (app pre rest) - (length pre + k) = length rest - k)%nat.
Proof. rewrite length_app. lia. Qed.

Lemma remaining0 (pre rest : list string) :
  (length (app pre rest) - length pre = length rest)%nat.
Proof. rewrite length_app. lia. Qed.

Lemma in_range (pre : list string) t rest :
  (length pre <? length (app pre (t :: rest)))%nat = true.
Proof. apply Nat.ltb_lt. rewrite length_app. simpl. lia. Qed.

Lemma at_here (pre : list string) t rest :
  at_ (app pre (t :: rest)) (length pre) = Some t.
Proof.
  rewrite <- (Nat.add_0_r (length pre)) at 1. now rewrite at_after.
Qed.

(** The loop, started behind any prefix with at least one pass per
    remaining token, ends, does not panic, and ends as the grammar says. *)
Lemma loop_grammar fuel :
  forall (pre rest acc : list string),
    (length rest <= fuel)%nat ->
    exists o, loop fuel (app pre rest) (length pre) acc = Some o /\
              agrees o acc (FilterGrammar.parse rest).
Proof.
  induction fuel as [|fuel IH]; intros pre rest acc Hlen.
  - destruct rest; [|simpl in Hlen; lia].
    rewrite loop_unfold, app_nil_r, Nat.ltb_irrefl. simpl.
    exists (Done acc). split; [reflexivity|]. simpl. now rewrite app_nil_r.
  - destruct rest as [|t rest].
    + rewrite loop_unfold, app_nil_r, Nat.ltb_irrefl. simpl.
      exists (Done acc). split; [reflexivity|]. simpl. now rewrite app_nil_r.
    + simpl in Hlen.
      rewrite loop_unfold, in_range, at_here. cbn [negb].
      cbn [FilterGrammar.parse]. rewrite <- keyword_agree.
      destruct (t =? "reverse") eqn:Hrev.
      { (* reverse *)
        apply String.eqb_eq in Hrev. subst t.
        rewrite (loop_shift fuel pre ["reverse"] rest) by reflexivity.
        destruct (IH (app pre ["reverse"]) rest
                     (app acc ["reverse"; "true"])) as [o [Ho Hag]]; [lia|].
        exists o. split; [exact Ho|]. now apply agrees_cons. }
      destruct (is_one_value_keyword t) eqn:Hkw.
      { (* sort, limit, offset *)
        rewrite remaining0, at_after.
        destruct rest as [|v rest].
        - simpl. eexists. split; [reflexivity|]. simpl. eauto.
        - cbn [length Nat.ltb Nat.leb nth_error].
          rewrite (loop_shift fuel pre [t; v] rest) by reflexivity.
          destruct (IH (app pre [t; v]) rest (app acc [t; v]))
            as [o [Ho Hag]]; [simpl in Hlen; lia|].
          exists o. split; [exact Ho|]. now apply agrees_cons. }
      (* a comparison clause *)
      rewrite remaining0, at_after.
      destruct rest as [|rawop rest].
      { simpl. eexists. split; [reflexivity|]. simpl. eauto. }
      cbn [length Nat.ltb Nat.leb nth_error].
      cbv zeta.
      set (op := Strings.Title (Strings.ToLower rawop)).
      rewrite !remaining, <- !Nat.add_assoc, !at_after.
      cbn [length Nat.sub Nat.add nth_error].
      pose proof (operator_found FilterGrammar.one_value_ops rawop eq_refl)
        as Hone.
      pose proof (operator_found FilterGrammar.two_value_ops rawop eq_refl)
        as Htwo.
      fold op in Hone, Htwo.
      rewrite <- unary_agree in Hone. rewrite <- binary_agree in Htwo.
      destruct (FilterGrammar.operator FilterGrammar.one_value_ops rawop)
        as [name|].
      { (* Eq, Lt, Lte, Gt, Gte, Ne *)
        destruct Hone as [Hun Hname]. rewrite Hun. subst name.
        destruct rest as [|v rest].
        - simpl. eexists. split; [reflexivity|]. simpl. eauto.
        - cbn [length Nat.sub Nat.leb].
          rewrite (loop_shift fuel pre [t; rawop; v] rest) by reflexivity.
          destruct (IH (app pre [t; rawop; v]) rest
                       (app acc [t; op ++ "(" ++ v ++ ")"]))
            as [o [Ho Hag]]; [simpl in Hlen; lia|].
          exists o. split; [exact Ho|]. now apply agrees_cons. }
      rewrite Hone.
      destruct (FilterGrammar.operator FilterGrammar.two_value_ops rawop)
        as [name|].
      { (* Between, Except *)
        destruct Htwo as [Hbin Hname]. rewrite Hbin. subst name.
        destruct rest as [|lo [|hi rest]].
        - simpl. eexists. split; [reflexivity|]. simpl. eauto.
        - simpl. eexists. split; [reflexivity|]. simpl. eauto.
        - cbn [length Nat.sub Nat.leb].
          rewrite (loop_shift fuel pre [t; rawop; lo; hi] rest)
            by reflexivity.
          destruct (IH (app pre [t; rawop; lo; hi]) rest
                       (app acc [t; op ++ "(" ++ lo ++ "," ++ hi ++ ")"]))
            as [o [Ho Hag]]; [simpl in Hlen; lia|].
          exists o. split; [exact Ho|]. now apply agrees_cons. }
      (* an unknown operator *)
      rewrite Htwo.
      eexists. split; [reflexivity|]. simpl. eauto.
Qed.

(** [R.Filter]'s loop is total and computes what the grammar does. *)
Lemma run_grammar (filterArgs : list string) :
  exists o, run filterArgs = Some o /\
            agrees o [] (FilterGrammar.parse filterArgs).
Proof.
  unfold run.
  exact (loop_grammar (length filterArgs) [] filterArgs [] (le_n _)).
Qed.


End FilterRefinement.

(** ** The request builder *)

Section Builder.

Context `{Runtime}.

Lemma Headers_even_keeps (r : R) (args : list string) :
  odd_len args = false ->
  method (Headers r args) = method r /\
  uri (Headers r args) = uri r /\
  body (Headers r args) = body r /\
  err (Headers r args) = err r /\
  Req_ (Headers r args) = Req_ r.
Proof.
  intros Heven. unfold Headers. rewrite Heven. simpl. auto.
Qed.

(** [Do]'s own headers touch nothing but the header map. *)
Lemma Do_headers_header (r : R) (val : dest) :
  Do_headers r val = set_header r (header (Do_headers r val)).
Proof.
  unfold Do_headers, Headers.
  destruct (negb (traceLvl r =? EmptyString)), (is_Writer val);
    reflexivity.
Qed.

Lemma Do_headers_keeps (r : R) (val : dest) :
  method (Do_headers r val) = method r /\
  uri (Do_headers r val) = uri r /\
  body (Do_headers r val) = body r /\
  err (Do_headers r val) = err r /\
  Req_ (Do_headers r val) = Req_ r.
Proof.
  rewrite Do_headers_header. simpl. auto.
Qed.

Lemma ContainsError_Errorf (e : Models.Error) (msg : string) :
  Models.ContainsError (Models.Errorf e msg) = true.
Proof.
  unfold Models.ContainsError, Models.Errorf. simpl.
  now destruct (Models.Messages e).
Qed.

Lemma HasError_Errorf (e : Models.Error) (msg : string) :
  Models.HasError (Models.Errorf e msg) = Some (Models.Errorf e msg).
Proof.
  unfold Models.HasError. now rewrite ContainsError_Errorf.
Qed.

(** What [Do] answers when one of its three checks stops it. *)
Lemma Do_stopped (c : Client) (r : R) (val : dest) :
  uri r = None \/ closed c = true \/
  Models.ContainsError (err r) = true ->
  Do c r val =
  let r' := match uri r with
            | None => r_Errorf r "No URL to talk to"
            | Some _ => if closed c then r_Errorf r "Connection Closed"
                        else r
            end in
  {| ret := Some (err r'); after := r'; sent := []; effect := Untouched;
     filled := false |}.
Proof.
  intros Hstop. unfold Do.
  destruct (uri r) as [u|]; [|reflexivity].
  destruct (closed c); [reflexivity|].
  destruct (Models.ContainsError (err r)); [reflexivity|].
  destruct Hstop as [Hu|[Hc|He]]; discriminate.
Qed.

End Builder.

(** ** The checks of [Do] *)

Section Checks.

Context `{Runtime}.

(** C1.  [Do] checks its preconditions before any network interaction,
    in this order: no resolved URL gives the error [No URL to talk to];
    otherwise a closed session gives [Connection Closed]; otherwise an
    error recorded by an earlier call of the chain gives the accumulated
    error.  In each of the three cases an error is returned, nothing is
    sent and no request is constructed. *)
Theorem Do_checks_before_network (c : Client) (r : R) (val : dest) :
  uri r = None \/ closed c = true \/
  Models.ContainsError (err r) = true ->
  exists e,
    ret (Do c r val) = Some e /\
    e = match uri r with
        | None => Models.Errorf (err r) "No URL to talk to"
        | Some _ =>
            if closed c then Models.Errorf (err r) "Connection Closed"
            else err r
        end /\
    Models.ContainsError e = true /\
    sent (Do c r val) = [] /\
    effect (Do c r val) = Untouched /\
    Req_ (after (Do c r val)) = Req_ r /\
    Resp (after (Do c r val)) = Resp r.
Proof.
  intros Hstop. rewrite (Do_stopped c r val Hstop). cbv zeta.
  eexists. split; [reflexivity|].
  destruct (uri r) as [u|] eqn:Hu.
  - destruct (closed c) eqn:Hc.
    + simpl. rewrite ContainsError_Errorf. auto 10.
    + simpl. destruct Hstop as [Hn|[Hn|He]]; try discriminate.
      auto 10.
  - simpl. rewrite ContainsError_Errorf. auto 10.
Qed.

(** C2, amended.  On a session that [Close] has closed, [Do]
    on any request returns an error and sends nothing: the error
    [Connection Closed] when the request has a resolved URL, and the
    error [No URL to talk to] when it has none. *)
Theorem Do_after_Close (c c' : Client) (r : R) (val : dest) :
  Close c = Some c' ->
  closed c' = true /\
  sent (Do c' r val) = [] /\
  ret (Do c' r val) =
    Some (Models.Errorf (err r)
            match uri r with
            | None => "No URL to talk to"
            | Some _ => "Connection Closed"
            end).
Proof.
  unfold Close. destruct (closer c); intros Hc; inversion Hc; subst; clear Hc.
  split; [reflexivity|].
  rewrite Do_stopped by (right; left; reflexivity).
  simpl. now destruct (uri r).
Qed.

Lemma PatchTo_mismatch_eq (c : Client) (r : R)
      (old new : Models.ModelValue) :
  Models.Prefix old <> Models.Prefix new \/
  Models.ModelKey old <> Models.ModelKey new ->
  PatchTo c r old new =
  r_Errorf
    (set_err r (Models.set_Model (Models.set_Model (err r) (Models.Prefix old))
                                 (Models.ModelKey old)))
    (PatchTo_message old new).
Proof.
  intros Hdiff. unfold PatchTo.
  destruct (negb (Models.Prefix old =? Models.Prefix new) ||
            negb (Models.ModelKey old =? Models.ModelKey new)) eqn:Hneq.
  - reflexivity.
  - apply orb_false_elim in Hneq. destruct Hneq as [Hp Hk].
    apply negb_false_iff, String.eqb_eq in Hp.
    apply negb_false_iff, String.eqb_eq in Hk.
    destruct Hdiff; contradiction.
Qed.

(** C5.  For two models whose resource types or keys differ, [PatchTo]
    records the identity-mismatch error in the accumulator and sets no
    patch body (the builder's body, method, headers and URL are as they
    were); [Do] then returns an error carrying that message and sends
    nothing. *)
Theorem PatchTo_identity_mismatch (c : Client) (r : R)
        (old new : Models.ModelValue) (val : dest) :
  Models.Prefix old <> Models.Prefix new \/
  Models.ModelKey old <> Models.ModelKey new ->
  Models.Messages (err (PatchTo c r old new)) =
    app (Models.Messages (err r)) [PatchTo_message old new] /\
  Models.ContainsError (err (PatchTo c r old new)) = true /\
  body (PatchTo c r old new) = body r /\
  method (PatchTo c r old new) = method r /\
  header (PatchTo c r old new) = header r /\
  uri (PatchTo c r old new) = uri r /\
  sent (Do c (PatchTo c r old new) val) = [] /\
  exists e,
    ret (Do c (PatchTo c r old new) val) = Some e /\
    In (PatchTo_message old new) (Models.Messages e).
Proof.
  intros Hdiff. rewrite (PatchTo_mismatch_eq c r old new Hdiff).
  set (r' := r_Errorf _ _).
  assert (Hce : Models.ContainsError (err r') = true)
    by apply ContainsError_Errorf.
  repeat (split; [reflexivity || exact Hce|]).
  rewrite Do_stopped by (right; right; exact Hce).
  split; [reflexivity|].
  eexists. split; [reflexivity|].
  destruct (uri r'); [destruct (closed c)|]; simpl;
    repeat (apply in_or_app; (right; left; reflexivity) || left);
    apply in_or_app; right; left; reflexivity.
Qed.

End Checks.

(** ** Headers *)

Section HeaderFacts.

Lemma lookup_store_same (h : Http.Header) k vs :
  Http.lookup (Http.store h k vs) k = vs.
Proof.
  induction h as [|[k' old] h IH]; simpl.
  - now rewrite String.eqb_refl.
  - destruct (k' =? k) eqn:E; simpl; rewrite E; auto.
Qed.

Lemma lookup_store_other (h : Http.Header) k k' vs :
  k <> k' -> Http.lookup (Http.store h k vs) k' = Http.lookup h k'.
Proof.
  intros Hne. induction h as [|[k0 old] h IH]; simpl.
  - apply String.eqb_neq in Hne. now rewrite Hne.
  - destruct (k0 =? k) eqn:E; simpl.
    + apply String.eqb_eq in E. subst k0.
      apply String.eqb_neq in Hne. now rewrite Hne.
    + destruct (k0 =? k'); auto.
Qed.

Lemma Values_Add_same (h : Http.Header) k v :
  Http.Values (Http.Add h k v) k = app (Http.Values h k) [v].
Proof. unfold Http.Values, Http.Add. apply lookup_store_same. Qed.

Lemma Values_Add_other (h : Http.Header) k k' v :
  Http.CanonicalMIMEHeaderKey k <> Http.CanonicalMIMEHeaderKey k' ->
  Http.Values (Http.Add h k v) k' = Http.Values h k'.
Proof. unfold Http.Values, Http.Add. apply lookup_store_other. Qed.

Lemma Values_Set_other (h : Http.Header) k k' v :
  Http.CanonicalMIMEHeaderKey k <> Http.CanonicalMIMEHeaderKey k' ->
  Http.Values (Http.Set_ h k v) k' = Http.Values h k'.
Proof. unfold Http.Values, Http.Set_. apply lookup_store_other. Qed.

(** [Authorize] leaves every header but [Authorization] alone. *)
Lemma Authorize_other (c : Client) (req : Http.Request) k :
  Http.CanonicalMIMEHeaderKey "Authorization" <>
  Http.CanonicalMIMEHeaderKey k ->
  Http.Values (Http.ReqHeader (Authorize c req)) k =
  Http.Values (Http.ReqHeader req) k.
Proof.
  intros Hk. unfold Authorize.
  destruct (Http.Get (Http.ReqHeader req) "Authorization" =? EmptyString);
    [|reflexivity].
  simpl. now apply Values_Set_other.
Qed.

(** The [Accept] values [Do] leaves in the builder's header: the ones it
    found, then JSON, then, for a writer, the octet stream. *)
Lemma Do_headers_Accept (r : R) (val : dest) :
  Http.Values (header (Do_headers r val)) "Accept" =
  app (Http.Values (header r) "Accept")
      ("application/json" ::
       if is_Writer val then ["application/octet-stream"] else []).
Proof.
  unfold Do_headers, Headers.
  destruct (negb (traceLvl r =? EmptyString)), (is_Writer val); simpl;
    repeat (rewrite Values_Add_same
            || rewrite Values_Add_other by (vm_compute; discriminate));
    rewrite <- ?app_assoc; reflexivity.
Qed.

End HeaderFacts.

(** ** Execution past the checks *)

Section Execution.

Context `{Runtime}.

Variables (c : Client) (r : R) (val : dest) (u : Url.URL).

Hypothesis Huri : uri r = Some u.
Hypothesis Hopen : closed c = false.
Hypothesis Hclean : Models.ContainsError (err r) = false.
Hypothesis Hnew : NewRequest_error (method r) u = None.

(** Past its checks, [Do] sends [Do_request] and goes on with the
    response, or returns the error of the transport. *)
Lemma Do_sends :
  Do c r val =
  let req := Do_request c r val u in
  let r' := set_header (set_Req (Do_headers r val) (Some req))
                       (Http.ReqHeader req) in
  match RoundTrip req with
  | Err e =>
      {| ret := Some (err (r_AddError r' (Some e)));
         after := r_AddError r' (Some e); sent := [req];
         effect := Untouched; filled := false |}
  | Ok resp => Do_response r' val req resp
  end.
Proof.
  unfold Do. rewrite Huri, Hopen, Hclean. cbv zeta.
  destruct (Do_headers_keeps r val) as (Hm & _ & Hb & _ & _).
  unfold NewRequest. rewrite Hm, Hb, Hnew. reflexivity.
Qed.

Lemma Do_sent_one : sent (Do c r val) = [Do_request c r val u].
Proof.
  rewrite Do_sends. cbv zeta.
  destruct (RoundTrip (Do_request c r val u)) as [resp|e]; [|reflexivity].
  unfold Do_response. cbv zeta.
  repeat match goal with
         | |- context [match ?x with _ => _ end] => destruct x
         end; reflexivity.
Qed.

End Execution.

Section Responses.

Context `{Runtime}.

(** C7, amended.  For every request that passes the checks of
    [Do] and is built, the request sent carries, under [Accept], the
    values the builder already had, then [application/json], and, when
    the destination is an [io.Writer], [application/octet-stream] after
    it: the octet stream is added to the JSON value, not put in its
    place. *)
Theorem Do_Accept_header (c : Client) (r : R) (val : dest) (u : Url.URL) :
  uri r = Some u ->
  closed c = false ->
  Models.ContainsError (err r) = false ->
  NewRequest_error (method r) u = None ->
  exists req,
    sent (Do c r val) = [req] /\
    Http.Values (Http.ReqHeader req) "Accept" =
      app (Http.Values (header r) "Accept")
          ("application/json" ::
           if is_Writer val then ["application/octet-stream"] else []).
Proof.
  intros Huri Hopen Hclean Hnew.
  exists (Do_request c r val u). split.
  - now apply Do_sent_one.
  - unfold Do_request.
    rewrite Authorize_other by (vm_compute; discriminate).
    apply Do_headers_Accept.
Qed.

(** The builder of [ExistsModel] once its URL is resolved. *)
Lemma UrlFor_resolved (c : Client) (r : R) (args : list string)
      (u : Url.URL) :
  Client_UrlFor c args = Ok u -> UrlFor c r args = set_uri r (Some u).
Proof. intros Hu. unfold UrlFor. now rewrite Hu. Qed.

(** C8.  When the server answers the HEAD request of [ExistsModel] with
    status 404, [ExistsModel] returns [(false, nil)]; with a status up to
    300, [(true, nil)]; with any other status, false and an error that
    carries the status code. *)
Theorem ExistsModel_by_status (c : Client) (prefix key : string)
        (u : Url.URL) (resp : Http.Response) :
  closed c = false ->
  Client_UrlFor c [prefix; key] = Ok u ->
  NewRequest_error "HEAD" u = None ->
  RoundTrip (Do_request c (set_uri (Head (Req c)) (Some u)) DestNil u) =
    Ok resp ->
  ExistsModel c prefix key =
    if (Http.StatusCode resp =? Http.StatusNotFound)%Z then (false, None)
    else if (Http.StatusCode resp <=? 300)%Z then (true, None)
    else (false,
          Some {| Models.Model := EmptyString;
                  Models.Key := EmptyString;
                  Models.Type_ := "CLIENT_ERROR";
                  Models.Messages := [StatusText (Http.StatusCode resp)];
                  Models.Code := Http.StatusCode resp |}).
Proof.
  intros Hopen Hu Hnew Hnet. unfold ExistsModel.
  rewrite (UrlFor_resolved c _ _ u Hu).
  rewrite (Do_sends c (set_uri (Head (Req c)) (Some u)) DestNil u
                    eq_refl Hopen eq_refl Hnew).
  cbv zeta. rewrite Hnet. unfold Do_response. cbv zeta.
  destruct (Do_headers_keeps (set_uri (Head (Req c)) (Some u)) DestNil)
    as (Hm & _ & _ & He & _).
  cbn [copy_to method set_Resp set_header set_Req err].
  rewrite Hm, He.
  cbn [method set_uri Head Meth set_method Req err String.eqb Ascii.eqb
       Bool.eqb].
  unfold Http.StatusNotFound.
  destruct (Http.StatusCode resp <=? 300)%Z eqn:Hle.
  - destruct (Http.StatusCode resp =? 404)%Z eqn:H404; [|reflexivity].
    apply Z.eqb_eq in H404. apply Z.leb_le in Hle. lia.
  - unfold r_Errorf.
    cbn [err set_err set_Resp set_header set_Req ret Models.Code
         Models.set_Code].
    rewrite He. cbn. now destruct (Http.StatusCode resp =? 404)%Z.
Qed.

(** C10.  For a request whose method is not HEAD and whose destination is
    no [io.Writer], a response declared [application/json] with any
    status below 400, the range 300-399 included, is a success: with a
    destination and a content length other than 0 the body is decoded
    into the destination and [Do] returns the decoding error, nil when
    there is none; otherwise [Do] returns nil.  From status 400 on, the
    body is decoded as the server's error, which [Do] returns. *)
Theorem Do_json_below_400 (c : Client) (r : R) (val : dest) (u : Url.URL)
        (resp : Http.Response) :
  uri r = Some u ->
  closed c = false ->
  Models.ContainsError (err r) = false ->
  NewRequest_error (method r) u = None ->
  RoundTrip (Do_request c r val u) = Ok resp ->
  (method r =? "HEAD") = false ->
  is_Writer val = false ->
  ParseMediaType (Http.Get (Http.RespHeader resp) "Content-Type") =
    "application/json" ->
  let res := Do c r val in
  let content := Http.RespBody resp in
  if (Http.StatusCode resp <? 400)%Z then
    match val with
    | DestValue decode_error _ =>
        if (Http.ContentLength resp =? 0)%Z
        then ret res = None /\ effect res = Untouched
        else ret res = option_map (Models.Errorf (err r))
                                  (decode_error content) /\
             effect res = Decoded content
    | _ => ret res = None /\ effect res = Untouched
    end
  else
    effect res = Untouched /\
    ret res = Some match json_DecodeError content with
                   | Ok server_error => server_error
                   | Err e =>
                       Models.Errorf
                         (Models.set_Code (err r) (Http.StatusCode resp)) e
                   end.
Proof.
  intros Huri Hopen Hclean Hnew Hnet Hmeth Hwr Hct. cbv zeta.
  rewrite (Do_sends c r val u Huri Hopen Hclean Hnew). cbv zeta.
  rewrite Hnet. unfold Do_response, r_AddError, r_Errorf. cbv zeta.
  destruct (Do_headers_keeps r val) as (Hm & _ & _ & He & _).
  assert (Hcopy : copy_to val (Http.StatusCode resp) = None)
    by (destruct val; [reflexivity|discriminate|reflexivity]).
  rewrite Hcopy. cbn [method set_Resp set_header set_Req set_err err].
  rewrite Hm, Hmeth, Hct, String.eqb_refl, ?He.
  assert (Hnone : Models.HasError (err r) = None)
    by (unfold Models.HasError; now rewrite Hclean).
  replace (Http.StatusCode resp >=? 400)%Z
    with (negb (Http.StatusCode resp <? 400)%Z)
    by (rewrite Z.geb_leb, Z.ltb_antisym, negb_involutive; reflexivity).
  destruct (Http.StatusCode resp <? 400)%Z; cbn [negb].
  - destruct val as [|w d|d f]; [|discriminate|].
    + cbn [ret effect err set_Resp set_header set_Req]. auto.
    + destruct (Http.ContentLength resp =? 0)%Z;
        cbn [negb ret effect err set_err set_Resp set_header set_Req];
        rewrite ?He.
      * auto.
      * destruct (d (Http.RespBody resp)) as [msg|];
          cbn [Models.AddError option_map].
        -- rewrite HasError_Errorf. auto.
        -- auto.
  - destruct (json_DecodeError (Http.RespBody resp));
      cbn [ret effect err set_err set_Resp set_header set_Req
           Models.AddError];
      rewrite ?He; auto.
Qed.

End Responses.

(** ** Query parameters *)

Section Query.

Context `{Runtime}.

Lemma Params_even (r : R) (u : Url.URL) (args : list string) :
  uri r = Some u -> odd_len args = false ->
  Params r args = set_uri r (Some (Url.set_RawQuery u (Params_query args))).
Proof. intros Hu He. unfold Params. now rewrite Hu, He. Qed.


End Query.

(** ** The filter compiler *)

Section FilterClaims.

Context `{Runtime}.

(** C3.  [Filter] reads its tokens left to right as the grammar says:
    [reverse] emits one parameter; [sort], [limit] and [offset] take the
    one token that follows as their value; any other token opens a
    comparison, whose operator token is matched against the operator names
    whatever its case ([FilterGrammar.operator]) and emitted as the name in
    title case, with one value for [Eq], [Lt], [Lte], [Gt], [Gte], [Ne]
    (emitted as [op(value)]) and two for [Between], [Except] (emitted as
    [op(lower,upper)]).  When the grammar accepts the tokens, the loop
    ends with the parameters of the clauses, in order, and [Filter] hands
    them to [Params]; when it rejects them (another operator, or too few
    tokens left for a clause), the loop ends with an error, which
    [Filter] records in the accumulator.  The loop always ends, without
    an index out of range. *)
Theorem Filter_follows_grammar (c : Client) (r : R) (prefix : string)
        (filterArgs : list string) :
  match FilterGrammar.parse filterArgs with
  | Some clauses =>
      let params := concat (map FilterGrammar.emit clauses) in
      FilterLoop.run filterArgs = Some (FilterLoop.Done params) /\
      Filter c r prefix filterArgs =
        Params (UrlFor c (Get r) [prefix]) params
  | None =>
      exists msg,
        FilterLoop.run filterArgs = Some (FilterLoop.Invalid msg) /\
        Filter c r prefix filterArgs =
          r_Errorf (UrlFor c (Get r) [prefix]) msg /\
        Models.ContainsError (err (Filter c r prefix filterArgs)) = true
  end.
Proof.
  destruct (run_grammar filterArgs) as [o [Hrun Hag]].
  unfold Filter. rewrite Hrun.
  destruct (FilterGrammar.parse filterArgs) as [cs|]; simpl in Hag.
  - subst o. cbv zeta. split; reflexivity.
  - destruct Hag as [msg ->]. exists msg.
    repeat split. apply ContainsError_Errorf.
Qed.

(** C4, amended.  For the tokens name, Eq, foo, limit, 10 on
    the resource type machines, [Filter] makes a GET request and hands
    [Params] the pairs name, Eq(foo) and limit, 10; the query string of
    the request URL is their encoding, sorted by key and with the
    parentheses percent-escaped: limit=10&name=Eq%28foo%29. *)
Theorem Filter_machines_query (c : Client) (r : R) (u : Url.URL) :
  Client_UrlFor c ["machines"] = Ok u ->
  let r' := Filter c r "machines" ["name"; "Eq"; "foo"; "limit"; "10"] in
  r' = Params (UrlFor c (Get r) ["machines"])
              ["name"; "Eq(foo)"; "limit"; "10"] /\
  method r' = "GET" /\
  uri r' = Some (Url.set_RawQuery u "limit=10&name=Eq%28foo%29") /\
  Url.QueryEscape "name" ++ "=" ++ Url.QueryEscape "Eq(foo)" =
    "name=Eq%28foo%29".
Proof.
  intros Hu. cbv zeta. unfold Filter.
  change (FilterLoop.run ["name"; "Eq"; "foo"; "limit"; "10"])
    with (Some (FilterLoop.Done ["name"; "Eq(foo)"; "limit"; "10"])).
  cbv iota beta.
  rewrite (UrlFor_resolved c (Get r) ["machines"] u Hu).
  rewrite (Params_even (set_uri (Get r) (Some u)) u
                       ["name"; "Eq(foo)"; "limit"; "10"] eq_refl eq_refl).
  change (Params_query ["name"; "Eq(foo)"; "limit"; "10"])
    with "limit=10&name=Eq%28foo%29".
  repeat split.
Qed.

End FilterClaims.

(** ** Sessions *)

Section Sessions.

Context `{Runtime}.

Lemma login_request_resolved (c : Client) (u : Url.URL) :
  Client_UrlFor c ["users"; username c; "token"] = Ok u ->
  login_request c =
  set_header (set_uri (Req c) (Some u))
    (Http.Add [] "Authorization"
       ("Basic " ++
        base64_EncodeToString (username c ++ ":" ++ password c))).
Proof.
  intros Hu. unfold login_request.
  now rewrite (UrlFor_resolved c (Req c) _ u Hu).
Qed.

(** C6.  The validity of 600 that the claim gives the first token is asked
    for by [reauth] alone.  The first authentication of [UserSession] sends
    one GET request to the token URL of the user, with the query the URL
    was resolved with and nothing added: it names no TTL.  The request of
    [reauth], on the same URL, carries the query ttl=600. *)
Theorem UserSession_login_names_no_ttl (ep user pass : string)
        (u : Url.URL) :
  Client_UrlFor (new_client ep user pass) ["users"; user; "token"] = Ok u ->
  NewRequest_error "GET" u = None ->
  (exists req,
      fst (UserSession ep user pass) = [req] /\
      Http.Method req = "GET" /\
      Http.URL req = u) /\
  uri (reauth_request (new_client ep user pass)) =
    Some (Url.set_RawQuery u "ttl=600").
Proof.
  intros Hu Hnew.
  pose proof (login_request_resolved (new_client ep user pass) u Hu) as Hlog.
  split.
  - assert (Hsent :
              sent (Do (new_client ep user pass)
                       (login_request (new_client ep user pass)) token_dest) =
              [Do_request (new_client ep user pass)
                          (login_request (new_client ep user pass))
                          token_dest u]).
    { apply Do_sent_one; rewrite ?Hlog; try reflexivity. exact Hnew. }
    eexists. unfold UserSession. cbv zeta.
    split.
    + destruct (ret (Do (new_client ep user pass)
                        (login_request (new_client ep user pass))
                        token_dest)); cbn [fst]; exact Hsent.
    + rewrite Hlog. unfold Do_request, Authorize.
      match goal with
      | |- context [if ?b then _ else _] => destruct b
      end; split; reflexivity.
  - unfold reauth_request.
    change (username (new_client ep user pass)) with user.
    rewrite (UrlFor_resolved _ (Req (new_client ep user pass)) _ u Hu).
    now rewrite (Params_even
                   (set_uri (Req (new_client ep user pass)) (Some u)) u
                   ["ttl"; "600"] eq_refl eq_refl).
Qed.

(** One turn of the renewal loop: the shutdown signal ends it; a tick
    re-authenticates, and then a failure is fatal while a success puts the
    newly decoded token in place of the old one, whole. *)
Lemma renew_turn (c : Client) (w : wakeup) :
  renew c w =
  match w with
  | CloserFired => Returned
  | Tick =>
      match ret (reauth c) with
      | Some e => Fatal e
      | None => Renewed (set_token c (Some (token_of (reauth c))))
      end
  end.
Proof. destruct w; reflexivity. Qed.

Lemma renewed_token (c c' : Client) :
  renew c Tick = Renewed c' ->
  token c' = Some (token_of (reauth c)) /\
  endpoint c' = endpoint c /\ username c' = username c /\
  closed c' = closed c.
Proof.
  rewrite renew_turn.
  destruct (ret (reauth c)); [discriminate|].
  intros Hc. inversion Hc. simpl. auto.
Qed.

End Sessions.

(** ** Examples on the transport stub *)

(** C1 on a closed session with a resolved URL: the network must not be
    reached, and is not. *)
Lemma Do_checks_before_network_witness :
  closed Stub.closed_client = true /\
  exists e,
    ret (Do (H := Stub.unreachable) Stub.closed_client
            (Stub.get_machine_foo Stub.closed_client) DestNil) = Some e /\
    Models.Messages e = ["Connection Closed"].
Proof.
  split; [reflexivity|].
  destruct (@Do_checks_before_network Stub.unreachable Stub.closed_client
              (Stub.get_machine_foo Stub.closed_client) DestNil
              (or_intror (or_introl eq_refl)))
    as [e [Hret [He _]]].
  exists e. split; [exact Hret|]. rewrite He. reflexivity.
Defined.

(** C2 as stated fails on the request it names: after [Close], a fresh
    [Req()] executed at once has no URL, and [Do] returns the error
    [No URL to talk to], not [Connection Closed]. *)
Lemma Close_then_Req_Do_reports_no_URL :
  exists c' e,
    Close Stub.client = Some c' /\
    ret (Do (H := Stub.unreachable) c' (Req c') DestNil) = Some e /\
    Models.Messages e = ["No URL to talk to"] /\
    ~ In "Connection Closed" (Models.Messages e).
Proof.
  eexists. eexists. split; [reflexivity|]. split; [reflexivity|].
  split; [reflexivity|].
  simpl. intros [Habs|[]]. discriminate Habs.
Qed.

Lemma Do_after_Close_witness :
  Close Stub.client = Some Stub.closed_client /\
  sent (Do (H := Stub.unreachable) Stub.closed_client
           (Stub.get_machine_foo Stub.closed_client) DestNil) = [] /\
  option_map Models.Messages
    (ret (Do (H := Stub.unreachable) Stub.closed_client
             (Stub.get_machine_foo Stub.closed_client) DestNil)) =
  Some ["Connection Closed"].
Proof.
  split; [reflexivity|].
  destruct (@Do_after_Close Stub.unreachable Stub.client Stub.closed_client
              (Stub.get_machine_foo Stub.closed_client) DestNil eq_refl)
    as [_ [Hsent Hret]].
  split; [exact Hsent|]. rewrite Hret. reflexivity.
Defined.

(** C4 as stated fails: the query string holds the value with its
    parentheses escaped, so the text name=Eq(foo) does not occur in it. *)
Lemma Filter_machines_query_is_escaped :
  exists u,
    uri (Filter (H := Stub.unreachable) Stub.client
                (Stub.get_machine_foo Stub.client) "machines"
                ["name"; "Eq"; "foo"; "limit"; "10"]) = Some u /\
    Url.RawQuery u = "limit=10&name=Eq%28foo%29" /\
    Strings.Contains (Url.RawQuery u) "limit=10" = true /\
    Strings.Contains (Url.RawQuery u) "name=Eq(foo)" = false.
Proof.
  eexists. split; [reflexivity|]. repeat split.
Qed.

Lemma Filter_machines_query_witness :
  Client_UrlFor (H := Stub.unreachable) Stub.client ["machines"] =
    Ok Stub.machines_url /\
  uri (Filter (H := Stub.unreachable) Stub.client
              (Stub.get_machine_foo Stub.client) "machines"
              ["name"; "Eq"; "foo"; "limit"; "10"]) =
  Some (Url.set_RawQuery Stub.machines_url "limit=10&name=Eq%28foo%29").
Proof.
  split; [reflexivity|].
  exact (proj1 (proj2 (proj2
           (@Filter_machines_query Stub.unreachable Stub.client
              (Stub.get_machine_foo Stub.client) Stub.machines_url
              eq_refl)))).
Defined.

Lemma PatchTo_identity_mismatch_witness :
  Models.ModelKey (Stub.machine "a") <> Models.ModelKey (Stub.machine "b") /\
  sent (Do (H := Stub.unreachable) Stub.client
           (PatchTo (H := Stub.unreachable) Stub.client (Req Stub.client)
                    (Stub.machine "a") (Stub.machine "b")) DestNil) = [] /\
  body (PatchTo (H := Stub.unreachable) Stub.client (Req Stub.client)
                (Stub.machine "a") (Stub.machine "b")) = None.
Proof.
  assert (Hk : Models.ModelKey (Stub.machine "a") <>
               Models.ModelKey (Stub.machine "b")) by discriminate.
  split; [exact Hk|].
  destruct (@PatchTo_identity_mismatch Stub.unreachable Stub.client
              (Req Stub.client) (Stub.machine "a") (Stub.machine "b") DestNil
              (or_intror Hk))
    as (_ & _ & Hbody & _ & _ & _ & Hsent & _).
  split; [exact Hsent|exact Hbody].
Defined.

Lemma UserSession_login_names_no_ttl_witness :
  (exists req,
      fst (UserSession (H := Stub.always
                               (Stub.response 200 "application/json" "tok"))
                       "https://127.0.0.1:8092" "rocketskates" "r0cketsk8ts")
        = [req] /\
      Url.RawQuery (Http.URL req) = EmptyString) /\
  option_map Url.RawQuery
    (uri (reauth_request (H := Stub.unreachable)
            (new_client "https://127.0.0.1:8092" "rocketskates" "r0cketsk8ts")))
    = Some "ttl=600".
Proof.
  destruct (@UserSession_login_names_no_ttl
              (Stub.always (Stub.response 200 "application/json" "tok"))
              "https://127.0.0.1:8092" "rocketskates" "r0cketsk8ts"
              Stub.token_url eq_refl eq_refl)
    as [[req [Hsent [_ Hurl]]] Hre].
  split.
  - exists req. split; [exact Hsent|]. rewrite Hurl. reflexivity.
  - reflexivity.
Defined.

(** C7 as stated fails for a writer: the request still asks for JSON, and
    first; the octet stream comes second. *)
Lemma Do_writer_still_accepts_json :
  exists req,
    sent (Do (H := Stub.always
                     (Stub.response 200 "application/octet-stream" "bytes"))
             Stub.client (Stub.get_machine_foo Stub.client)
             (DestWriter None Stub.accepts_anything)) = [req] /\
    Http.Values (Http.ReqHeader req) "Accept" =
      ["application/json"; "application/octet-stream"] /\
    Http.Get (Http.ReqHeader req) "Accept" = "application/json".
Proof.
  eexists. split; [reflexivity|]. split; reflexivity.
Qed.

Lemma Do_Accept_header_witness :
  uri (Stub.get_machine_foo Stub.client) = Some Stub.machine_foo_url /\
  exists req,
    sent (Do (H := Stub.always (Stub.response 200 "application/json" "{}"))
             Stub.client (Stub.get_machine_foo Stub.client)
             (DestValue Stub.accepts_anything false)) = [req] /\
    Http.Values (Http.ReqHeader req) "Accept" = ["application/json"].
Proof.
  split; [reflexivity|].
  destruct (@Do_Accept_header
              (Stub.always (Stub.response 200 "application/json" "{}"))
              Stub.client (Stub.get_machine_foo Stub.client)
              (DestValue Stub.accepts_anything false) Stub.machine_foo_url
              eq_refl eq_refl eq_refl eq_refl)
    as [req [Hsent Hacc]].
  exists req. split; [exact Hsent|]. rewrite Hacc. reflexivity.
Defined.

Lemma ExistsModel_by_status_witness :
  ExistsModel (H := Stub.always (Stub.response 404 "text/plain" "gone"))
              Stub.client "machines" "foo" = (false, None) /\
  ExistsModel (H := Stub.always (Stub.response 200 "text/plain" "here"))
              Stub.client "machines" "foo" = (true, None) /\
  snd (ExistsModel (H := Stub.always (Stub.response 500 "text/plain" "oops"))
                   Stub.client "machines" "foo") <> None.
Proof.
  split; [|split].
  - exact (@ExistsModel_by_status
             (Stub.always (Stub.response 404 "text/plain" "gone"))
             Stub.client "machines" "foo" Stub.machine_foo_url
             (Stub.response 404 "text/plain" "gone")
             eq_refl eq_refl eq_refl eq_refl).
  - exact (@ExistsModel_by_status
             (Stub.always (Stub.response 200 "text/plain" "here"))
             Stub.client "machines" "foo" Stub.machine_foo_url
             (Stub.response 200 "text/plain" "here")
             eq_refl eq_refl eq_refl eq_refl).
  - rewrite (@ExistsModel_by_status
               (Stub.always (Stub.response 500 "text/plain" "oops"))
               Stub.client "machines" "foo" Stub.machine_foo_url
               (Stub.response 500 "text/plain" "oops")
               eq_refl eq_refl eq_refl eq_refl).
    discriminate.
Defined.

Lemma Do_json_below_400_witness :
  (302 <? 400)%Z = true /\
  ret (Do (H := Stub.always (Stub.response 302 "application/json" "{}"))
          Stub.client (Stub.get_machine_foo Stub.client)
          (DestValue Stub.accepts_anything false)) = None /\
  effect (Do (H := Stub.always (Stub.response 302 "application/json" "{}"))
             Stub.client (Stub.get_machine_foo Stub.client)
             (DestValue Stub.accepts_anything false)) = Decoded "{}".
Proof.
  split; [reflexivity|].
  exact (@Do_json_below_400
           (Stub.always (Stub.response 302 "application/json" "{}"))
           Stub.client (Stub.get_machine_foo Stub.client)
           (DestValue Stub.accepts_anything false) Stub.machine_foo_url
           (Stub.response 302 "application/json" "{}")
           eq_refl eq_refl eq_refl eq_refl eq_refl eq_refl eq_refl eq_refl).
Defined.

(** * Further properties *)

(** ** What [Do] does and never does *)

Section DoFacts.

Context `{Runtime}.

(** When [http.NewRequest] fails, [Do] stops with its error. *)
Lemma Do_unbuilt (c : Client) (r : R) (val : dest) (u : Url.URL) (e : string) :
  uri r = Some u ->
  closed c = false ->
  Models.ContainsError (err r) = false ->
  NewRequest_error (method r) u = Some e ->
  ret (Do c r val) = Some (Models.Errorf (err r) e) /\
  sent (Do c r val) = [] /\
  filled (Do c r val) = false.
Proof.
  intros Huri Hopen Hclean Hnew. unfold Do.
  rewrite Huri, Hopen, Hclean. cbv zeta.
  destruct (Do_headers_keeps r val) as (Hm & _ & Hb & He & _).
  unfold NewRequest. rewrite Hm, Hnew. unfold r_AddError.
  cbn [ret sent filled err set_err Models.AddError]. rewrite He. auto.
Qed.

(** The three ways out of [Do]: stopped before the network, failed in the
    transport, or answered. *)
Lemma Do_cases (c : Client) (r : R) (val : dest) :
  (sent (Do c r val) = [] /\ filled (Do c r val) = false /\
   exists e, ret (Do c r val) = Some e) \/
  (exists u,
      uri r = Some u /\ closed c = false /\
      Models.ContainsError (err r) = false /\
      NewRequest_error (method r) u = None /\
      sent (Do c r val) = [Do_request c r val u] /\
      ((filled (Do c r val) = false /\
        exists msg, RoundTrip (Do_request c r val u) = Err msg /\
                    exists e, ret (Do c r val) = Some e) \/
       exists resp,
         RoundTrip (Do_request c r val u) = Ok resp /\
         Do c r val =
         Do_response
           (set_header (set_Req (Do_headers r val)
                                (Some (Do_request c r val u)))
                       (Http.ReqHeader (Do_request c r val u)))
           val (Do_request c r val u) resp)).
Proof.
  destruct (uri r) as [u|] eqn:Huri;
    [|left; rewrite Do_stopped by auto; cbn; eauto].
  destruct (closed c) eqn:Hopen;
    [left; rewrite Do_stopped by auto; cbn; eauto|].
  destruct (Models.ContainsError (err r)) eqn:Hclean;
    [left; rewrite Do_stopped by auto; cbn; eauto|].
  destruct (NewRequest_error (method r) u) as [e|] eqn:Hnew.
  - left.
    destruct (Do_unbuilt c r val u e Huri Hopen Hclean Hnew) as (Hr & Hs & Hf).
    eauto.
  - right. exists u. repeat (split; [reflexivity || assumption|]).
    split; [now apply Do_sent_one|].
    rewrite (Do_sends c r val u Huri Hopen Hclean Hnew). cbv zeta.
    destruct (RoundTrip (Do_request c r val u)) as [resp|msg].
    + right. exists resp. split; reflexivity.
    + left. cbn. eauto.
Qed.

(** [Do] returns nil only for a response that came with a status below
    400 (up to 300 for a HEAD request whose body was not copied). *)
Lemma Do_response_nil (r : R) (val : dest) (req : Http.Request)
      (resp : Http.Response) :
  ret (Do_response r val req resp) = None ->
  (Http.StatusCode resp < 400)%Z.
Proof.
  unfold Do_response. cbv zeta.
  destruct (copy_to val (Http.StatusCode resp)) as [w|] eqn:Hcopy.
  - intros _. destruct val as [|w' d|d f]; try discriminate.
    simpl in Hcopy.
    destruct (Http.StatusCode resp <? 300)%Z eqn:Hlt; [|discriminate].
    apply Z.ltb_lt in Hlt. lia.
  - cbn [method set_Resp].
    destruct (method r =? "HEAD").
    + destruct (Http.StatusCode resp <=? 300)%Z eqn:Hle.
      * intros _. apply Z.leb_le in Hle. lia.
      * cbn. discriminate.
    + destruct (ParseMediaType _ =? "application/json"); [|cbn; discriminate].
      destruct (Http.StatusCode resp >=? 400)%Z eqn:Hge.
      * destruct (json_DecodeError (Http.RespBody resp)); cbn; discriminate.
      * intros _. rewrite Z.geb_leb in Hge. apply Z.leb_gt in Hge. exact Hge.
Qed.

End DoFacts.

Section DoProperties.

Context `{Runtime}.

(** X1.  [Do] returns nil only when the request passed the three checks,
    was sent, and was answered with a status below 400: never without a
    response, and never for a status of 400 or more. *)
Theorem Do_nil_means_answered (c : Client) (r : R) (val : dest) :
  ret (Do c r val) = None ->
  exists u resp,
    uri r = Some u /\
    closed c = false /\
    Models.ContainsError (err r) = false /\
    sent (Do c r val) = [Do_request c r val u] /\
    RoundTrip (Do_request c r val u) = Ok resp /\
    (Http.StatusCode resp < 400)%Z.
Proof.
  intros Hnil.
  destruct (Do_cases c r val) as [(_ & _ & e & He)|
                                  (u & Hu & Ho & Hc & _ & Hs & Hrest)].
  - rewrite He in Hnil. discriminate.
  - destruct Hrest as [(_ & msg & _ & e & He)|(resp & Hnet & Heq)].
    + rewrite He in Hnil. discriminate.
    + exists u, resp. repeat (split; [assumption|]).
      rewrite Heq in Hnil. now apply Do_response_nil in Hnil.
Qed.

(** X4.  For a request whose method is not HEAD and whose response body is
    not copied to a writer, a response that is not declared
    [application/json] is an error whatever its status and whatever the
    destination, nil included: [Do] returns the accumulator with the two
    messages about the content type and decodes nothing. *)
Theorem Do_rejects_other_content (c : Client) (r : R) (val : dest)
        (u : Url.URL) (resp : Http.Response) :
  uri r = Some u ->
  closed c = false ->
  Models.ContainsError (err r) = false ->
  NewRequest_error (method r) u = None ->
  RoundTrip (Do_request c r val u) = Ok resp ->
  (method r =? "HEAD") = false ->
  copy_to val (Http.StatusCode resp) = None ->
  ParseMediaType (Http.Get (Http.RespHeader resp) "Content-Type") <>
    "application/json" ->
  let ct := Http.Get (Http.RespHeader resp) "Content-Type" in
  ret (Do c r val) =
    Some (Models.Errorf
            (Models.Errorf (err r) ("Cannot handle content-type " ++ ct))
            ("No decoder for content-type " ++ ct)) /\
  effect (Do c r val) = Untouched.
Proof.
  intros Huri Hopen Hclean Hnew Hnet Hmeth Hcopy Hct. cbv zeta.
  rewrite (Do_sends c r val u Huri Hopen Hclean Hnew). cbv zeta.
  rewrite Hnet. unfold Do_response, r_Errorf. cbv zeta.
  destruct (Do_headers_keeps r val) as (Hm & _ & _ & He & _).
  rewrite Hcopy. cbn [method set_Resp set_header set_Req set_err err].
  rewrite Hm, Hmeth.
  apply String.eqb_neq in Hct. rewrite Hct.
  cbn [ret effect err set_err]. rewrite He. auto.
Qed.

(** X5.  When the destination is an [io.Writer] and the status is below
    300, [Do] copies the body to it as it is, whatever the method and the
    content type, and returns the error of the copy, nil when there is
    none; nothing is decoded. *)
Theorem Do_copies_to_writer (c : Client) (r : R) (u : Url.URL)
        (resp : Http.Response) (write_error : option string)
        (decode_error : string -> option string) :
  uri r = Some u ->
  closed c = false ->
  Models.ContainsError (err r) = false ->
  NewRequest_error (method r) u = None ->
  RoundTrip (Do_request c r (DestWriter write_error decode_error) u) =
    Ok resp ->
  (Http.StatusCode resp < 300)%Z ->
  effect (Do c r (DestWriter write_error decode_error)) =
    Copied (Http.RespBody resp) /\
  ret (Do c r (DestWriter write_error decode_error)) =
    option_map (Models.Errorf (err r)) write_error.
Proof.
  intros Huri Hopen Hclean Hnew Hnet Hlt.
  rewrite (Do_sends c r _ u Huri Hopen Hclean Hnew). cbv zeta.
  rewrite Hnet. unfold Do_response, r_AddError. cbv zeta.
  destruct (Do_headers_keeps r (DestWriter write_error decode_error))
    as (_ & _ & _ & He & _).
  cbn [copy_to]. apply Z.ltb_lt in Hlt. rewrite Hlt.
  cbn [ret effect err set_err set_Resp set_header set_Req]. rewrite He.
  split; [reflexivity|].
  destruct write_error as [msg|]; cbn [Models.AddError option_map].
  - apply HasError_Errorf.
  - unfold Models.HasError. now rewrite Hclean.
Qed.

End DoProperties.

(** ** Headers of the request sent *)

Section HeaderProperties.

Context `{Runtime}.

Lemma Values_Add_canonical (h : Http.Header) k k' v :
  Http.Values (Http.Add h k v) k' =
  if Http.CanonicalMIMEHeaderKey k =? Http.CanonicalMIMEHeaderKey k'
  then app (Http.Values h k') [v]
  else Http.Values h k'.
Proof.
  destruct (Http.CanonicalMIMEHeaderKey k =? Http.CanonicalMIMEHeaderKey k')
    eqn:E.
  - apply String.eqb_eq in E. unfold Http.Values, Http.Add.
    rewrite <- E. apply lookup_store_same.
  - apply String.eqb_neq in E. now apply Values_Add_other.
Qed.

Lemma fold_Add_Values (l : list (string * string)) (h : Http.Header) k :
  Http.Values (fold_left (fun h kv => Http.Add h (fst kv) (snd kv)) l h) k =
  app (Http.Values h k)
      (map snd (filter (fun kv => Http.CanonicalMIMEHeaderKey (fst kv) =?
                                  Http.CanonicalMIMEHeaderKey k) l)).
Proof.
  revert h. induction l as [|[k1 v1] l IH]; intros h; simpl.
  - now rewrite app_nil_r.
  - rewrite IH, Values_Add_canonical.
    destruct (Http.CanonicalMIMEHeaderKey k1 =? Http.CanonicalMIMEHeaderKey k);
      simpl; [now rewrite <- app_assoc|reflexivity].
Qed.

(** X6.  [Headers] with an even number of arguments adds to each header
    the values of the pairs given under that name, in the order given and
    after the values the header already had; names are matched in their
    canonical form, so without regard to case.  Nothing is replaced, and
    no error is recorded. *)
Theorem Headers_appends (r : R) (args : list string) (k : string) :
  odd_len args = false ->
  Http.Values (header (Headers r args)) k =
    app (Http.Values (header r) k)
        (map snd (filter (fun kv => Http.CanonicalMIMEHeaderKey (fst kv) =?
                                    Http.CanonicalMIMEHeaderKey k)
                         (pairs args))) /\
  err (Headers r args) = err r.
Proof.
  intros Heven. unfold Headers. rewrite Heven. cbn [header set_header err].
  split; [apply fold_Add_Values|reflexivity].
Qed.

(** The headers [Do] adds of its own leave every other header alone. *)
Lemma Do_headers_other (r : R) (val : dest) (k : string) :
  Http.CanonicalMIMEHeaderKey k <> "Accept" ->
  Http.CanonicalMIMEHeaderKey k <> "X-Log-Request" ->
  Http.CanonicalMIMEHeaderKey k <> "X-Log-Token" ->
  Http.Values (header (Do_headers r val)) k = Http.Values (header r) k.
Proof.
  intros Ha Hr Ht. unfold Do_headers, Headers.
  destruct (negb (traceLvl r =? EmptyString)), (is_Writer val); simpl;
    repeat (rewrite Values_Add_other
              by (intros E;
                  first [ apply Ha; rewrite <- E; reflexivity
                        | apply Hr; rewrite <- E; reflexivity
                        | apply Ht; rewrite <- E; reflexivity ]));
    reflexivity.
Qed.

Lemma Values_Set_same (h : Http.Header) k v :
  Http.Values (Http.Set_ h k v) k = [v].
Proof. unfold Http.Values, Http.Set_. apply lookup_store_same. Qed.

(** X7.  The request [Do] sends carries the caller's [Authorization]
    header when the builder has one whose first value is not empty, and
    otherwise the single value [Bearer] followed by the session's token
    (empty for a session without token): the bearer token never replaces
    an explicit authorization. *)
Theorem Do_Authorization (c : Client) (r : R) (val : dest) (u : Url.URL) :
  uri r = Some u ->
  closed c = false ->
  Models.ContainsError (err r) = false ->
  NewRequest_error (method r) u = None ->
  exists req,
    sent (Do c r val) = [req] /\
    Http.Values (Http.ReqHeader req) "Authorization" =
      if Http.Get (header r) "Authorization" =? EmptyString
      then ["Bearer " ++ Token c]
      else Http.Values (header r) "Authorization".
Proof.
  intros Huri Hopen Hclean Hnew.
  exists (Do_request c r val u). split; [now apply Do_sent_one|].
  assert (Hsame : Http.Values (header (Do_headers r val)) "Authorization" =
                  Http.Values (header r) "Authorization")
    by (apply Do_headers_other; vm_compute; discriminate).
  unfold Do_request, Authorize. cbn [Http.ReqHeader].
  unfold Http.Get. rewrite Hsame.
  destruct (match Http.Values (header r) "Authorization" with
            | [] => EmptyString
            | v :: _ => v
            end =? EmptyString).
  - cbn [Http.ReqHeader Http.set_ReqHeader]. apply Values_Set_same.
  - exact Hsame.
Qed.

(** X8.  With a trace level that is not empty, the request [Do] sends
    carries it as a further value of [X-Log-Request], and the trace token,
    empty or not, as a further value of [X-Log-Token]; with an empty trace
    level, [Do] adds nothing to either header. *)
Theorem Do_trace_headers (c : Client) (r : R) (val : dest) (u : Url.URL) :
  uri r = Some u ->
  closed c = false ->
  Models.ContainsError (err r) = false ->
  NewRequest_error (method r) u = None ->
  exists req,
    sent (Do c r val) = [req] /\
    Http.Values (Http.ReqHeader req) "X-Log-Request" =
      app (Http.Values (header r) "X-Log-Request")
          (if traceLvl r =? EmptyString then [] else [traceLvl r]) /\
    Http.Values (Http.ReqHeader req) "X-Log-Token" =
      app (Http.Values (header r) "X-Log-Token")
          (if traceLvl r =? EmptyString then [] else [traceToken r]).
Proof.
  intros Huri Hopen Hclean Hnew.
  exists (Do_request c r val u). split; [now apply Do_sent_one|].
  unfold Do_request.
  rewrite !Authorize_other by (vm_compute; discriminate).
  cbn [Http.ReqHeader]. unfold Do_headers, Headers.
  destruct (traceLvl r =? EmptyString), (is_Writer val); simpl;
    repeat (rewrite Values_Add_same
            || rewrite Values_Add_other by (vm_compute; discriminate));
    rewrite ?app_nil_r; split; reflexivity.
Qed.

End HeaderProperties.

(** ** Errors recorded along a chain *)

Section Chains.

Context `{Runtime}.

Lemma grows_refl (e : Models.Error) : grows e e.
Proof. exists []. now rewrite app_nil_r. Qed.

Lemma grows_trans (e1 e2 e3 : Models.Error) :
  grows e1 e2 -> grows e2 e3 -> grows e1 e3.
Proof.
  intros [m1 H1] [m2 H2]. exists (app m1 m2).
  now rewrite H2, H1, app_assoc.
Qed.

Lemma grows_Errorf (e : Models.Error) (msg : string) :
  grows e (Models.Errorf e msg).
Proof. now exists [msg]. Qed.

Lemma grows_AddError (e : Models.Error) (src : option string) :
  grows e (Models.AddError e src).
Proof. destruct src; [apply grows_Errorf|apply grows_refl]. Qed.

Lemma grows_Headers (r : R) (args : list string) :
  grows (err r) (err (Headers r args)).
Proof.
  unfold Headers. destruct (odd_len args); [apply grows_Errorf|apply grows_refl].
Qed.

Lemma grows_Body (r : R) (b : body_arg) : grows (err r) (err (Body r b)).
Proof.
  destruct b as [|content|content|v]; simpl.
  - apply grows_refl.
  - apply grows_refl.
  - apply grows_refl.
  - destruct (json_Marshal v).
    + apply grows_refl.
    + apply (grows_AddError _ (Some msg)).
Qed.

Lemma grows_UrlFor (c : Client) (r : R) (args : list string) :
  grows (err r) (err (UrlFor c r args)).
Proof.
  unfold UrlFor. destruct (Client_UrlFor c args);
    [apply grows_refl|apply grows_AddError].
Qed.

Lemma grows_UrlForM (c : Client) (r : R) (m : Models.ModelValue)
      (rest : list string) :
  grows (err r) (err (UrlForM c r m rest)).
Proof.
  unfold UrlForM.
  eapply grows_trans; [|apply grows_UrlFor].
  exists []. simpl. now rewrite app_nil_r.
Qed.

Lemma grows_Params (r : R) (args : list string) :
  grows (err r) (err (Params r args)).
Proof.
  unfold Params. destruct (uri r); [destruct (odd_len args)|];
    try apply grows_Errorf. apply grows_refl.
Qed.

Lemma grows_Filter (c : Client) (r : R) (prefix : string)
      (filterArgs : list string) :
  grows (err r) (err (Filter c r prefix filterArgs)).
Proof.
  unfold Filter.
  assert (Hu : grows (err r) (err (UrlFor c (Get r) [prefix])))
    by apply (grows_UrlFor c (Get r)).
  destruct (FilterLoop.run filterArgs) as [[ps|msg|]|]; try exact Hu.
  - eapply grows_trans; [exact Hu|apply grows_Params].
  - eapply grows_trans; [exact Hu|apply grows_Errorf].
Qed.

Lemma grows_PatchObj (r : R) (old new : Models.ModelValue) :
  grows (err r) (err (PatchObj r old new)).
Proof.
  unfold PatchObj. destruct (GenPatch old new (paranoid r)).
  - apply (grows_Body (Meth r "PATCH")).
  - apply grows_AddError.
Qed.

Lemma grows_PatchTo (c : Client) (r : R) (old new : Models.ModelValue) :
  grows (err r) (err (PatchTo c r old new)).
Proof.
  unfold PatchTo.
  destruct (negb (Models.Prefix old =? Models.Prefix new) ||
            negb (Models.ModelKey old =? Models.ModelKey new)).
  - now exists [PatchTo_message old new].
  - eapply grows_trans; [apply grows_PatchObj|apply grows_UrlForM].
Qed.

Lemma grows_call (c : Client) (r : R) (k : call) :
  grows (err r) (err (apply_call c r k)).
Proof.
  destruct k; simpl;
    first [ apply grows_refl
          | apply grows_Headers
          | apply grows_Params
          | apply grows_Filter
          | apply grows_UrlFor
          | apply grows_UrlForM
          | apply grows_PatchObj
          | apply grows_PatchTo
          | apply grows_Body
          | apply (grows_UrlFor c (Get r))
          | apply (grows_Body (Meth r "PUT"))
          | apply (grows_Body (Meth r "POST"))
          | apply (grows_Body (Meth r "PATCH")) ].
Qed.

Lemma grows_chain (c : Client) (calls : list call) :
  forall r, grows (err r) (err (chain c r calls)).
Proof.
  unfold chain. induction calls as [|k calls IH]; intros r; simpl.
  - apply grows_refl.
  - eapply grows_trans; [apply grows_call|apply IH].
Qed.

(** X9.  No call of the builder removes a recorded error: once the
    accumulator holds an error, [Do] after any further chain of calls
    sends nothing and returns an error that still carries every message
    recorded before. *)
Theorem chain_keeps_errors (c : Client) (r : R) (calls : list call)
        (val : dest) :
  Models.ContainsError (err r) = true ->
  sent (Do c (chain c r calls) val) = [] /\
  exists e,
    ret (Do c (chain c r calls) val) = Some e /\
    forall msg, In msg (Models.Messages (err r)) ->
                In msg (Models.Messages e).
Proof.
  intros Herr.
  destruct (grows_chain c calls r) as [more Hmore].
  assert (Hce : Models.ContainsError (err (chain c r calls)) = true).
  { unfold Models.ContainsError in *. rewrite Hmore.
    destruct (Models.Messages (err r)); [discriminate|reflexivity]. }
  rewrite Do_stopped by auto. cbv zeta.
  split; [reflexivity|].
  eexists. split; [reflexivity|].
  intros msg Hin.
  assert (Hin' : In msg (Models.Messages (err (chain c r calls))))
    by (rewrite Hmore; apply in_or_app; now left).
  destruct (uri (chain c r calls)); [destruct (closed c)|]; simpl;
    try (apply in_or_app; now left); exact Hin'.
Qed.

End Chains.

(** ** The query string of [Params] *)

Section QueryProperties.

Context `{Runtime}.

Lemma items_Add (v : Url.Values) (k x : string) :
  Permutation (Url.items (Url.Add v k x))
              (app (Url.items v) [query_item (k, x)]).
Proof.
  unfold Url.items, query_item.
  induction v as [|[k0 vs] rest IH]; simpl.
  - apply Permutation_refl.
  - destruct (String.compare k k0) eqn:Hcmp; simpl.
    + apply String.compare_eq_iff in Hcmp. subst k0.
      rewrite map_app. simpl. rewrite <- !app_assoc.
      apply Permutation_app_head. apply Permutation_app_comm.
    + apply Permutation_cons_append.
    + rewrite <- app_assoc. now apply Permutation_app_head.
Qed.

Lemma items_fold (l : list (string * string)) :
  forall v,
    Permutation
      (Url.items (fold_left (fun vs kv => Url.Add vs (fst kv) (snd kv)) l v))
      (app (Url.items v) (map query_item l)).
Proof.
  induction l as [|[k x] l IH]; intros v; simpl.
  - rewrite app_nil_r. apply Permutation_refl.
  - eapply Permutation_trans; [apply IH|].
    change (query_item (k, x) :: map query_item l)
      with (app [query_item (k, x)] (map query_item l)).
    rewrite app_assoc. apply Permutation_app_tail. apply items_Add.
Qed.

Lemma HdRel_Add (k0 k x : string) (rest : Url.Values) :
  String.compare k0 k = Lt ->
  HdRel (fun a b => String.compare a b = Lt) k0 (map fst rest) ->
  HdRel (fun a b => String.compare a b = Lt) k0 (map fst (Url.Add rest k x)).
Proof.
  intros Hlt Hhd. destruct rest as [|[k1 vs] rest]; simpl.
  - now constructor.
  - inversion Hhd; subst.
    destruct (String.compare k k1); simpl; now constructor.
Qed.

Lemma ascending_Add (v : Url.Values) (k x : string) :
  ascending (map fst v) -> ascending (map fst (Url.Add v k x)).
Proof.
  unfold ascending. induction v as [|[k0 vs] rest IH]; simpl; intros Hs.
  - repeat constructor.
  - inversion Hs; subst.
    destruct (String.compare k k0) eqn:Hcmp; simpl.
    + now constructor.
    + constructor; [exact Hs|now constructor].
    + constructor; [now apply IH|].
      apply HdRel_Add; [|assumption].
      rewrite String.compare_antisym, Hcmp. reflexivity.
Qed.

Lemma ascending_fold (l : list (string * string)) :
  forall v,
    ascending (map fst v) ->
    ascending
      (map fst (fold_left (fun vs kv => Url.Add vs (fst kv) (snd kv)) l v)).
Proof.
  induction l as [|[k x] l IH]; intros v Hv; simpl.
  - exact Hv.
  - apply IH. now apply ascending_Add.
Qed.

(** X10.  The query string [Params] writes is made of one [key=value]
    item for each pair it was given, escaped and joined by [&]: no pair is
    dropped and pairs with the same key are all kept.  The items are
    grouped by key, and the keys come in strictly ascending order,
    whatever the order of the arguments. *)
Theorem Params_query_items (r : R) (u : Url.URL) (args : list string) :
  uri r = Some u ->
  odd_len args = false ->
  uri (Params r args) =
    Some (Url.set_RawQuery u
            (String.concat "&" (Url.items (Params_values args)))) /\
  Permutation (Url.items (Params_values args))
              (map query_item (pairs args)) /\
  ascending (map fst (Params_values args)).
Proof.
  intros Hu Heven. split; [|split].
  - now rewrite (Params_even r u args Hu Heven).
  - apply (items_fold (pairs args) []).
  - apply ascending_fold. constructor.
Qed.

End QueryProperties.

(** ** [Params] replaces the query *)

Section QueryReplaced.

Context `{Runtime}.


End QueryReplaced.



(** ** More on [Filter] *)

Section FilterProperties.

Context `{Runtime}.

Lemma operator_one_value (op : string) :
  existsb (String.eqb op) FilterGrammar.one_value_ops = true ->
  FilterGrammar.operator FilterGrammar.one_value_ops op = Some op.
Proof.
  simpl. rewrite !orb_true_iff.
  intros [E|[E|[E|[E|[E|[E|E]]]]]]; try discriminate;
    apply String.eqb_eq in E; subst op; reflexivity.
Qed.

Lemma operator_two_values (op : string) :
  existsb (String.eqb op) FilterGrammar.two_value_ops = true ->
  FilterGrammar.operator FilterGrammar.one_value_ops op = None /\
  FilterGrammar.operator FilterGrammar.two_value_ops op = Some op.
Proof.
  simpl. rewrite !orb_true_iff.
  intros [E|[E|E]]; try discriminate;
    apply String.eqb_eq in E; subst op; split; reflexivity.
Qed.

Lemma keyword_not_reverse (t : string) :
  FilterGrammar.keyword_with_value t = true -> (t =? "reverse") = false.
Proof.
  unfold FilterGrammar.keyword_with_value. simpl. rewrite !orb_true_iff.
  intros [E|[E|[E|E]]]; try discriminate;
    apply String.eqb_eq in E; subst t; reflexivity.
Qed.

(** The grammar reads back the clauses from their tokens. *)
Lemma parse_tokens (cs : list FilterGrammar.clause) :
  forallb documented cs = true ->
  FilterGrammar.parse (concat (map tokens_of cs)) = Some cs.
Proof.
  induction cs as [|cl cs IH]; [reflexivity|].
  cbn [forallb]. rewrite andb_true_iff. intros [Hcl Hcs].
  specialize (IH Hcs).
  destruct cl as [|keyword v|index op v|index op lower upper];
    cbn [map concat tokens_of app FilterGrammar.parse documented] in *.
  - now rewrite IH.
  - rewrite (keyword_not_reverse keyword Hcl), Hcl. now rewrite IH.
  - apply andb_true_iff in Hcl. destruct Hcl as [Hidx Hop].
    unfold is_index in Hidx. apply andb_true_iff in Hidx.
    destruct Hidx as [Hrev Hkw].
    apply negb_true_iff in Hrev. apply negb_true_iff in Hkw.
    rewrite Hrev, Hkw.
    rewrite (operator_one_value op Hop). now rewrite IH.
  - apply andb_true_iff in Hcl. destruct Hcl as [Hidx Hop].
    unfold is_index in Hidx. apply andb_true_iff in Hidx.
    destruct Hidx as [Hrev Hkw].
    apply negb_true_iff in Hrev. apply negb_true_iff in Hkw.
    rewrite Hrev, Hkw.
    destruct (operator_two_values op Hop) as [Hnone Hsome].
    rewrite Hnone, Hsome. now rewrite IH.
Qed.

(** X11.  Clauses written as the comment of [Filter] documents them, in
    any number and order, always compile: the loop ends with the
    parameters of the clauses, in order, and [Filter] records no error of
    its own and hands them to [Params]. *)
Theorem Filter_accepts_documented (c : Client) (r : R) (prefix : string)
        (cs : list FilterGrammar.clause) :
  forallb documented cs = true ->
  FilterLoop.run (concat (map tokens_of cs)) =
    Some (FilterLoop.Done (concat (map FilterGrammar.emit cs))) /\
  Filter c r prefix (concat (map tokens_of cs)) =
    Params (UrlFor c (Get r) [prefix]) (concat (map FilterGrammar.emit cs)).
Proof.
  intros Hdoc.
  destruct (run_grammar (concat (map tokens_of cs))) as [o [Hrun Hag]].
  rewrite (parse_tokens cs Hdoc) in Hag. simpl in Hag. subst o.
  split; [exact Hrun|].
  unfold Filter. now rewrite Hrun.
Qed.



End FilterProperties.

(** ** HEAD requests and [ExistsModel] *)

Section Exists.

Context `{Runtime}.

(** A HEAD request that was answered, its body not copied: nil up to
    status 300, and otherwise the accumulator with the status text and the
    status code. *)
Lemma Do_HEAD_answered (c : Client) (r : R) (val : dest) (u : Url.URL)
      (resp : Http.Response) :
  uri r = Some u ->
  closed c = false ->
  Models.ContainsError (err r) = false ->
  NewRequest_error (method r) u = None ->
  RoundTrip (Do_request c r val u) = Ok resp ->
  method r = "HEAD" ->
  copy_to val (Http.StatusCode resp) = None ->
  ret (Do c r val) =
    if (Http.StatusCode resp <=? 300)%Z then None
    else Some (Models.set_Code
                 (Models.Errorf (err r) (StatusText (Http.StatusCode resp)))
                 (Http.StatusCode resp)).
Proof.
  intros Huri Hopen Hclean Hnew Hnet Hmeth Hcopy.
  rewrite (Do_sends c r val u Huri Hopen Hclean Hnew). cbv zeta.
  rewrite Hnet. unfold Do_response, r_Errorf. cbv zeta.
  destruct (Do_headers_keeps r val) as (Hm & _ & _ & He & _).
  rewrite Hcopy. cbn [method set_Resp set_header set_Req set_err err].
  rewrite Hm, Hmeth. cbn [String.eqb Ascii.eqb Bool.eqb].
  destruct (Http.StatusCode resp <=? 300)%Z; [reflexivity|].
  cbn [ret err set_err]. now rewrite He.
Qed.

(** X13.  [ExistsModel] answers without an error only when the server
    answered its HEAD request: true for a status up to 300 and false for
    status 404.  On a closed session, an unresolved URL, a request that
    cannot be built or a failing transport it returns an error. *)
Theorem ExistsModel_answers_from_server (c : Client) (prefix key : string) :
  snd (ExistsModel c prefix key) = None ->
  exists u resp,
    Client_UrlFor c [prefix; key] = Ok u /\
    closed c = false /\
    RoundTrip (Do_request c (set_uri (Head (Req c)) (Some u)) DestNil u) =
      Ok resp /\
    if fst (ExistsModel c prefix key)
    then (Http.StatusCode resp <= 300)%Z
    else Http.StatusCode resp = Http.StatusNotFound.
Proof.
  unfold ExistsModel, UrlFor.
  destruct (Client_UrlFor c [prefix; key]) as [u|e] eqn:Hu.
  - set (r := set_uri (Head (Req c)) (Some u)).
    destruct (closed c) eqn:Hopen.
    { rewrite Do_stopped by auto. rewrite Hopen. unfold r. cbn. discriminate. }
    destruct (NewRequest_error (method r) u) as [e|] eqn:Hnew.
    { destruct (Do_unbuilt c r DestNil u e eq_refl Hopen eq_refl Hnew)
        as (Hr & _). rewrite Hr. cbn. discriminate. }
    destruct (RoundTrip (Do_request c r DestNil u)) as [resp|msg] eqn:Hnet.
    + rewrite (Do_HEAD_answered c r DestNil u resp eq_refl Hopen eq_refl
                                Hnew Hnet eq_refl eq_refl).
      destruct (Http.StatusCode resp <=? 300)%Z eqn:Hle.
      * intros _. exists u, resp. repeat (split; [reflexivity || exact Hnet|]).
        cbn. now apply Z.leb_le.
      * cbn [Models.Code Models.set_Code].
        destruct (Http.StatusCode resp =? Http.StatusNotFound)%Z eqn:H404;
          [|cbn; discriminate].
        intros _. exists u, resp. repeat (split; [reflexivity || exact Hnet|]).
        cbn. now apply Z.eqb_eq.
    + rewrite (Do_sends c r DestNil u eq_refl Hopen eq_refl Hnew). cbv zeta.
      rewrite Hnet. unfold r_AddError.
      destruct (Do_headers_keeps r DestNil) as (_ & _ & _ & He & _).
      cbn [ret err set_err set_header set_Req Models.AddError Models.Errorf
           Models.Code].
      rewrite He. unfold r. cbn. discriminate.
  - rewrite Do_stopped by (left; reflexivity). cbn. discriminate.
Qed.

End Exists.

(** ** The request sent, field by field *)

Section Requests.

Context `{Runtime}.

Lemma Do_request_fields (c : Client) (r : R) (val : dest) (u : Url.URL) :
  Http.Method (Do_request c r val u) =
    (if method r =? EmptyString then "GET" else method r) /\
  Http.URL (Do_request c r val u) = u /\
  Http.ReqBody (Do_request c r val u) = body r.
Proof.
  unfold Do_request, Authorize.
  match goal with
  | |- context [if ?b then Http.set_ReqHeader _ _ else _] => destruct b
  end; repeat split.
Qed.

Lemma Do_request_Authorization (c : Client) (r : R) (val : dest)
      (u : Url.URL) :
  Http.Values (Http.ReqHeader (Do_request c r val u)) "Authorization" =
    if Http.Get (header r) "Authorization" =? EmptyString
    then ["Bearer " ++ Token c]
    else Http.Values (header r) "Authorization".
Proof.
  assert (Hsame : Http.Values (header (Do_headers r val)) "Authorization" =
                  Http.Values (header r) "Authorization")
    by (apply Do_headers_other; vm_compute; discriminate).
  unfold Do_request, Authorize. cbn [Http.ReqHeader].
  unfold Http.Get. rewrite Hsame.
  destruct (match Http.Values (header r) "Authorization" with
            | [] => EmptyString
            | v :: _ => v
            end =? EmptyString).
  - cbn [Http.ReqHeader Http.set_ReqHeader]. apply Values_Set_same.
  - exact Hsame.
Qed.

Lemma Do_request_other_header (c : Client) (r : R) (val : dest)
      (u : Url.URL) (k : string) :
  Http.CanonicalMIMEHeaderKey k <> "Authorization" ->
  Http.Values (Http.ReqHeader (Do_request c r val u)) k =
  Http.Values (header (Do_headers r val)) k.
Proof.
  intros Hk. unfold Do_request.
  rewrite Authorize_other; [reflexivity|].
  intros E. apply Hk. rewrite <- E. reflexivity.
Qed.

(** X14.  A session made by [TokenSession] is open, and a request built
    from it with a resolved URL and no [Authorization] header of its own
    is sent with the single value [Bearer] and the token it was made
    with. *)
Theorem TokenSession_sends_bearer (ep tok : string) (args : list string)
        (val : dest) (u : Url.URL) :
  Client_UrlFor (TokenSession ep tok) args = Ok u ->
  NewRequest_error "GET" u = None ->
  closed (TokenSession ep tok) = false /\
  exists req,
    sent (Do (TokenSession ep tok)
             (UrlFor (TokenSession ep tok) (Req (TokenSession ep tok)) args)
             val) = [req] /\
    Http.URL req = u /\
    Http.Values (Http.ReqHeader req) "Authorization" = ["Bearer " ++ tok].
Proof.
  intros Hu Hnew. split; [reflexivity|].
  rewrite (UrlFor_resolved _ _ args u Hu).
  exists (Do_request (TokenSession ep tok)
                     (set_uri (Req (TokenSession ep tok)) (Some u)) val u).
  split; [apply Do_sent_one; try reflexivity; exact Hnew|].
  split; [apply Do_request_fields|].
  now rewrite Do_request_Authorization.
Qed.

(** X15.  The trace level set on a request replaces the one the request
    took from its session, also when it is empty: the request is sent
    with the request's level as the only [X-Log-Request] value, or with no
    such header when that level is empty, whatever level the session
    has. *)
Theorem request_trace_replaces_session_trace
        (c : Client) (session_lvl lvl : string) (args : list string)
        (val : dest) (u : Url.URL) :
  closed c = false ->
  Client_UrlFor (Client_Trace c session_lvl) args = Ok u ->
  NewRequest_error "GET" u = None ->
  exists req,
    sent (Do (Client_Trace c session_lvl)
             (Trace (UrlFor (Client_Trace c session_lvl)
                            (Req (Client_Trace c session_lvl)) args) lvl)
             val) = [req] /\
    Http.Values (Http.ReqHeader req) "X-Log-Request" =
      if lvl =? EmptyString then [] else [lvl].
Proof.
  intros Hopen Hu Hnew.
  rewrite (UrlFor_resolved _ _ args u Hu).
  set (c' := Client_Trace c session_lvl).
  set (r := Trace (set_uri (Req c') (Some u)) lvl).
  exists (Do_request c' r val u).
  split; [apply Do_sent_one; try reflexivity; assumption|].
  rewrite Do_request_other_header by (vm_compute; discriminate).
  unfold Do_headers, Headers. cbn [traceLvl r Trace set_traceLvl].
  destruct (lvl =? EmptyString), (is_Writer val); simpl;
    repeat (rewrite Values_Add_same
            || rewrite Values_Add_other by (vm_compute; discriminate));
    reflexivity.
Qed.

End Requests.

(** ** Models: [Fill], [Delete] and the patch calls *)

Section ModelCalls.

Context `{Runtime} `{ModelCodec}.

(** X16.  [R.Fill] and [R.Delete] on a model with an empty key send
    nothing, whatever the state of the builder and of the session: they
    return the accumulator with one more message, which names the resource
    type.  The accumulator's [Model] field is left holding the key, here
    empty, since it is assigned the prefix and then the key. *)
Theorem empty_key_is_refused (c : Client) (r : R) (m : Models.ModelValue) :
  Models.ModelKey m = EmptyString ->
  sent (Fill c r m) = [] /\
  sent (Delete c r m) = [] /\
  (exists e,
      ret (Fill c r m) = Some e /\
      Models.Messages e =
        app (Models.Messages (err r))
            ["Cannot Fill " ++ Models.Prefix m ++ " with an empty key"] /\
      Models.Model e = EmptyString) /\
  (exists e,
      ret (Delete c r m) = Some e /\
      Models.Messages e =
        app (Models.Messages (err r))
            ["Cannot Delete " ++ Models.Prefix m ++ " with an empty key"] /\
      Models.Model e = EmptyString).
Proof.
  intros Hkey. unfold Fill, Delete, guarded_by_key. cbv zeta.
  rewrite Hkey. cbn [String.eqb sent ret].
  repeat split; eexists; repeat split.
Qed.

(** X17.  [Client.PatchToFull] on two models whose resource types or keys
    differ sends nothing and returns the model [old] it was given together
    with an error whose messages are the identity mismatch and then
    [No URL to talk to], in strict mode or not. *)
Theorem PatchToFull_mismatch (c : Client) (old new : Models.ModelValue)
        (strict : bool) :
  Models.Prefix old <> Models.Prefix new \/
  Models.ModelKey old <> Models.ModelKey new ->
  exists e,
    PatchToFull c old new strict = ((old, Some e), []) /\
    Models.Messages e = [PatchTo_message old new; "No URL to talk to"].
Proof.
  intros Hdiff. unfold PatchToFull. cbv zeta.
  rewrite (PatchTo_mismatch_eq c _ old new Hdiff).
  rewrite Do_stopped by (left; now destruct strict).
  destruct strict; cbn; eexists; split; reflexivity.
Qed.

(** X18.  For two models of one identity, with a patch that is generated
    and marshalled and a URL that resolves on an open session,
    [Client.PatchToFull] sends one PATCH request to the URL of the old
    model; its body is the marshalled patch that [GenPatch] made with the
    strictness asked for, and its content type is JSON alone. *)
Theorem PatchToFull_request (c : Client) (old new : Models.ModelValue)
        (strict : bool) (p : Patch) (buf : string) (u : Url.URL) :
  Models.Prefix old = Models.Prefix new ->
  Models.ModelKey old = Models.ModelKey new ->
  GenPatch old new strict = Ok p ->
  json_Marshal (VPatch p) = Ok buf ->
  Client_UrlFor c [Models.Prefix old; Models.ModelKey old] = Ok u ->
  closed c = false ->
  NewRequest_error "PATCH" u = None ->
  exists req,
    snd (PatchToFull c old new strict) = [req] /\
    Http.Method req = "PATCH" /\
    Http.URL req = u /\
    Http.ReqBody req = Some buf /\
    Http.Values (Http.ReqHeader req) "Content-Type" = ["application/json"].
Proof.
  intros Hp Hk Hgen Hmar Hu Hopen Hnew.
  set (r0 := if strict then ParanoidPatch (Req c) else Req c).
  assert (Hpar : paranoid r0 = strict) by (unfold r0; now destruct strict).
  assert (Hr0 : r0 = set_paranoid (Req c) strict)
    by (unfold r0; now destruct strict).
  assert (Hpatch :
            PatchTo c r0 old new =
            set_uri
              (set_err
                 (set_body
                    (set_header (Meth r0 "PATCH")
                       (Http.Add [] "Content-Type" "application/json"))
                    (Some buf))
                 (Models.set_Key
                    (Models.set_Model (err r0) (Models.Prefix old))
                    (Models.ModelKey old)))
              (Some u)).
  { unfold PatchTo. rewrite Hp, Hk, !String.eqb_refl. cbn [negb orb].
    unfold PatchObj. rewrite Hpar, Hgen. unfold Body. rewrite Hmar.
    unfold UrlForM. cbn [app]. rewrite <- Hp, <- Hk.
    unfold UrlFor. rewrite Hu. rewrite Hr0. reflexivity. }
  set (r1 := PatchTo c r0 old new) in *.
  exists (Do_request c r1 (model_dest (models_Clone old)) u).
  assert (Hsent : sent (Do c r1 (model_dest (models_Clone old))) =
                  [Do_request c r1 (model_dest (models_Clone old)) u]).
  { apply Do_sent_one; rewrite ?Hpatch, ?Hr0; try reflexivity; assumption. }
  split.
  - unfold PatchToFull. cbv zeta. fold r0. fold r1.
    destruct (ret (Do c r1 (model_dest (models_Clone old))));
      cbn [snd]; exact Hsent.
  - destruct (Do_request_fields c r1 (model_dest (models_Clone old)) u)
      as (Hm & Hurl & Hbody).
    rewrite Hm, Hurl, Hbody, Hpatch, Hr0.
    repeat (split; [reflexivity|]).
    rewrite Do_request_other_header by (vm_compute; discriminate).
    rewrite Do_headers_other by (vm_compute; discriminate).
    reflexivity.
Qed.

End ModelCalls.

(** ** Authentication requests and blobs *)

Section SessionRequests.

Context `{Runtime}.

(** X19.  The first authentication of [UserSession] is sent with the
    basic credentials of the user as its only [Authorization] value: no
    bearer token is added to it. *)
Theorem UserSession_uses_basic_auth (ep user pass : string) (u : Url.URL) :
  Client_UrlFor (new_client ep user pass) ["users"; user; "token"] = Ok u ->
  NewRequest_error "GET" u = None ->
  exists req,
    fst (UserSession ep user pass) = [req] /\
    Http.Values (Http.ReqHeader req) "Authorization" =
      ["Basic " ++ base64_EncodeToString (user ++ ":" ++ pass)].
Proof.
  intros Hu Hnew.
  pose proof (login_request_resolved (new_client ep user pass) u Hu) as Hlog.
  set (c := new_client ep user pass) in *.
  exists (Do_request c (login_request c) token_dest u).
  split.
  - assert (Hsent : sent (Do c (login_request c) token_dest) =
                    [Do_request c (login_request c) token_dest u]).
    { apply Do_sent_one; rewrite ?Hlog; try reflexivity. exact Hnew. }
    unfold UserSession. fold c. cbv zeta.
    destruct (ret (Do c (login_request c) token_dest)); cbn [fst]; exact Hsent.
  - rewrite Do_request_Authorization, Hlog. reflexivity.
Qed.

(** X20.  [Client.reauth] on an open session sends one GET request to the
    token URL of the user with the query ttl=600, authorized by the
    session's current token as bearer: renewal does not use the
    password. *)
Theorem reauth_request_sent (c : Client) (u : Url.URL) :
  closed c = false ->
  Client_UrlFor c ["users"; username c; "token"] = Ok u ->
  NewRequest_error "GET" (Url.set_RawQuery u "ttl=600") = None ->
  exists req,
    sent (reauth c) = [req] /\
    Http.Method req = "GET" /\
    Http.URL req = Url.set_RawQuery u "ttl=600" /\
    Http.Values (Http.ReqHeader req) "Authorization" = ["Bearer " ++ Token c].
Proof.
  intros Hopen Hu Hnew.
  assert (Hreq : reauth_request c =
                 set_uri (Req c) (Some (Url.set_RawQuery u "ttl=600"))).
  { unfold reauth_request. rewrite (UrlFor_resolved c (Req c) _ u Hu).
    now rewrite (Params_even (set_uri (Req c) (Some u)) u ["ttl"; "600"]
                             eq_refl eq_refl). }
  exists (Do_request c (reauth_request c) token_dest
                     (Url.set_RawQuery u "ttl=600")).
  split.
  - unfold reauth. apply Do_sent_one; rewrite ?Hreq; try reflexivity;
      assumption.
  - destruct (Do_request_fields c (reauth_request c) token_dest
                                (Url.set_RawQuery u "ttl=600"))
      as (Hm & Hurl & _).
    rewrite Hm, Hurl, Do_request_Authorization, Hreq.
    repeat split.
Qed.

(** X21.  [PostBlob] on an open session with a resolved URL sends one POST
    request whose body is the blob as it is, with the content type
    [application/octet-stream] alone, and asks for a JSON answer. *)
Theorem PostBlob_request (c : Client) (blob : string) (at_ : list string)
        (decode_error : string -> option string) (u : Url.URL) :
  closed c = false ->
  Client_UrlFor c (blob_path at_) = Ok u ->
  NewRequest_error "POST" u = None ->
  exists req,
    sent (PostBlob c blob at_ decode_error) = [req] /\
    Http.Method req = "POST" /\
    Http.URL req = u /\
    Http.ReqBody req = Some blob /\
    Http.Values (Http.ReqHeader req) "Content-Type" =
      ["application/octet-stream"] /\
    Http.Values (Http.ReqHeader req) "Accept" = ["application/json"].
Proof.
  intros Hopen Hu Hnew. unfold PostBlob.
  rewrite (UrlFor_resolved c _ (blob_path at_) u Hu).
  set (r := set_uri (Post (Req c) (BodyReader blob)) (Some u)).
  exists (Do_request c r (DestValue decode_error false) u).
  split; [apply Do_sent_one; try reflexivity; assumption|].
  destruct (Do_request_fields c r (DestValue decode_error false) u)
    as (Hm & Hurl & Hbody).
  rewrite Hm, Hurl, Hbody.
  repeat (split; [reflexivity|]).
  rewrite !Do_request_other_header by (vm_compute; discriminate).
  split.
  - rewrite Do_headers_other by (vm_compute; discriminate). reflexivity.
  - rewrite Do_headers_Accept. reflexivity.
Qed.

End SessionRequests.

(** ** Tokens: the first one and the renewed ones *)

Section Tokens.

Context `{Runtime}.

(** A JSON answer below 400 to a request that is not HEAD, for a
    destination that is no writer. *)
Lemma Do_json_value (c : Client) (r : R) (u : Url.URL) (resp : Http.Response)
      (decode_error : string -> option string) (filler : bool) :
  uri r = Some u ->
  closed c = false ->
  Models.ContainsError (err r) = false ->
  NewRequest_error (method r) u = None ->
  RoundTrip (Do_request c r (DestValue decode_error filler) u) = Ok resp ->
  (method r =? "HEAD") = false ->
  ParseMediaType (Http.Get (Http.RespHeader resp) "Content-Type") =
    "application/json" ->
  (Http.StatusCode resp < 400)%Z ->
  ret (Do c r (DestValue decode_error filler)) =
    (if (Http.ContentLength resp =? 0)%Z then None
     else option_map (Models.Errorf (err r))
                     (decode_error (Http.RespBody resp))) /\
  effect (Do c r (DestValue decode_error filler)) =
    (if (Http.ContentLength resp =? 0)%Z then Untouched
     else Decoded (Http.RespBody resp)).
Proof.
  intros Huri Hopen Hclean Hnew Hnet Hmeth Hct Hlt.
  rewrite (Do_sends c r _ u Huri Hopen Hclean Hnew). cbv zeta.
  rewrite Hnet. unfold Do_response, r_AddError. cbv zeta.
  destruct (Do_headers_keeps r (DestValue decode_error filler))
    as (Hm & _ & _ & He & _).
  cbn [copy_to method set_Resp set_header set_Req set_err err].
  rewrite Hm, Hmeth, Hct, String.eqb_refl.
  assert (Hge : (Http.StatusCode resp >=? 400)%Z = false)
    by (rewrite Z.geb_leb; apply Z.leb_gt; exact Hlt).
  rewrite Hge.
  assert (Hnone : Models.HasError (err r) = None)
    by (unfold Models.HasError; now rewrite Hclean).
  destruct (Http.ContentLength resp =? 0)%Z;
    cbn [negb ret effect err set_err set_Resp set_header set_Req];
    rewrite ?He.
  - auto.
  - destruct (decode_error (Http.RespBody resp)) as [msg|];
      cbn [Models.AddError option_map].
    + rewrite HasError_Errorf. auto.
    + auto.
Qed.

(** X22.  When the first authentication of [UserSession] is answered
    below 400 with a JSON body, the session is returned with the token the
    body decodes to, and an error when the body does not decode.  When the
    answer declares content length 0, nothing is decoded and the session
    is returned without error and with an empty token. *)
Theorem UserSession_token (ep user pass : string) (u : Url.URL)
        (resp : Http.Response) :
  Client_UrlFor (new_client ep user pass) ["users"; user; "token"] = Ok u ->
  NewRequest_error "GET" u = None ->
  RoundTrip (Do_request (new_client ep user pass)
                        (login_request (new_client ep user pass))
                        token_dest u) = Ok resp ->
  ParseMediaType (Http.Get (Http.RespHeader resp) "Content-Type") =
    "application/json" ->
  (Http.StatusCode resp < 400)%Z ->
  if (Http.ContentLength resp =? 0)%Z then
    snd (UserSession ep user pass) =
      inl (set_token (new_client ep user pass)
                     (Some {| Models.Token := EmptyString |}))
  else
    match json_DecodeToken (Http.RespBody resp) with
    | Ok t =>
        snd (UserSession ep user pass) =
          inl (set_token (new_client ep user pass) (Some t))
    | Err e =>
        exists e', snd (UserSession ep user pass) = inr e' /\
                   Models.Messages e' = [e]
    end.
Proof.
  intros Hu Hnew Hnet Hct Hlt.
  pose proof (login_request_resolved (new_client ep user pass) u Hu) as Hlog.
  unfold UserSession, token_of. cbv zeta.
  set (c := new_client ep user pass) in *.
  assert (Huri : uri (login_request c) = Some u)
    by (rewrite Hlog; reflexivity).
  assert (Hclean : Models.ContainsError (err (login_request c)) = false)
    by (rewrite Hlog; reflexivity).
  assert (Hnew' : NewRequest_error (method (login_request c)) u = None)
    by (rewrite Hlog; exact Hnew).
  assert (Hmeth : (method (login_request c) =? "HEAD") = false)
    by (rewrite Hlog; reflexivity).
  destruct (Do_json_value c (login_request c) u resp _ false
                          Huri eq_refl Hclean Hnew' Hnet Hmeth Hct Hlt)
    as (Hret & Heff).
  change (DestValue _ false) with token_dest in Hret, Heff.
  rewrite Hret, Heff.
  destruct (Http.ContentLength resp =? 0)%Z; [reflexivity|].
  destruct (json_DecodeToken (Http.RespBody resp)) as [t|e];
    cbn [option_map snd].
  - reflexivity.
  - eexists. split; [reflexivity|]. rewrite Hlog. reflexivity.
Qed.

(** X23.  On a tick of the renewal timer answered below 400 with a JSON
    body that decodes to a token, the loop goes on with that token in
    place of the old one and the session otherwise as it was; a body that
    does not decode ends the process.  An answer that declares content
    length 0 replaces the token with an empty one. *)
Theorem renew_on_tick (c : Client) (u : Url.URL) (resp : Http.Response) :
  closed c = false ->
  Client_UrlFor c ["users"; username c; "token"] = Ok u ->
  NewRequest_error "GET" (Url.set_RawQuery u "ttl=600") = None ->
  RoundTrip (Do_request c (reauth_request c) token_dest
                        (Url.set_RawQuery u "ttl=600")) = Ok resp ->
  ParseMediaType (Http.Get (Http.RespHeader resp) "Content-Type") =
    "application/json" ->
  (Http.StatusCode resp < 400)%Z ->
  if (Http.ContentLength resp =? 0)%Z then
    renew c Tick = Renewed (set_token c (Some {| Models.Token := EmptyString |}))
  else
    match json_DecodeToken (Http.RespBody resp) with
    | Ok t => renew c Tick = Renewed (set_token c (Some t))
    | Err e => exists e', renew c Tick = Fatal e' /\ Models.Messages e' = [e]
    end.
Proof.
  intros Hopen Hu Hnew Hnet Hct Hlt.
  assert (Hreq : reauth_request c =
                 set_uri (Req c) (Some (Url.set_RawQuery u "ttl=600"))).
  { unfold reauth_request. rewrite (UrlFor_resolved c (Req c) _ u Hu).
    now rewrite (Params_even (set_uri (Req c) (Some u)) u ["ttl"; "600"]
                             eq_refl eq_refl). }
  unfold renew, reauth, token_of.
  assert (Huri : uri (reauth_request c) =
                 Some (Url.set_RawQuery u "ttl=600"))
    by (rewrite Hreq; reflexivity).
  assert (Hclean : Models.ContainsError (err (reauth_request c)) = false)
    by (rewrite Hreq; reflexivity).
  assert (Hnew' : NewRequest_error (method (reauth_request c))
                                   (Url.set_RawQuery u "ttl=600") = None)
    by (rewrite Hreq; exact Hnew).
  assert (Hmeth : (method (reauth_request c) =? "HEAD") = false)
    by (rewrite Hreq; reflexivity).
  destruct (Do_json_value c (reauth_request c) _ resp _ false
                          Huri Hopen Hclean Hnew' Hnet Hmeth Hct Hlt)
    as (Hret & Heff).
  change (DestValue _ false) with token_dest in Hret, Heff.
  rewrite Hret, Heff.
  destruct (Http.ContentLength resp =? 0)%Z; [reflexivity|].
  destruct (json_DecodeToken (Http.RespBody resp)) as [t|e];
    cbn [option_map].
  - reflexivity.
  - eexists. split; [reflexivity|]. rewrite Hreq. reflexivity.
Qed.

End Tokens.

(** ** Misuse of the builder *)

Section Misuse.

Context `{Runtime}.

(** A message in the accumulator stays there along a chain, and [Do] then
    refuses the request. *)
Lemma recorded_then_refused (c : Client) (r : R) (calls : list call)
      (val : dest) (msg : string) :
  In msg (Models.Messages (err r)) ->
  sent (Do c (chain c r calls) val) = [] /\
  exists e, ret (Do c (chain c r calls) val) = Some e /\
            In msg (Models.Messages e).
Proof.
  intros Hin.
  destruct (grows_chain c calls r) as [more Hmore].
  assert (Hin' : In msg (Models.Messages (err (chain c r calls))))
    by (rewrite Hmore; apply in_or_app; now left).
  assert (Hce : Models.ContainsError (err (chain c r calls)) = true).
  { unfold Models.ContainsError.
    destruct (Models.Messages (err (chain c r calls))); [destruct Hin'|].
    reflexivity. }
  rewrite Do_stopped by auto. cbv zeta.
  split; [reflexivity|].
  eexists. split; [reflexivity|].
  destruct (uri (chain c r calls)); [destruct (closed c)|]; simpl;
    try (apply in_or_app; now left); exact Hin'.
Qed.

(** X24.  [Params] called before the URL is resolved, or with an odd
    number of arguments, leaves the builder as it was but for one more
    message; whatever is chained after it, a later [UrlFor] included, [Do]
    then sends nothing and returns an error with that message. *)
Theorem Params_misuse_is_final (c : Client) (r : R) (args : list string)
        (calls : list call) (val : dest) :
  uri r = None \/ odd_len args = true ->
  let msg := match uri r with
             | None => "Cannot call WithParams before UrlFor or UrlForM"
             | Some _ =>
                 "WithParams was not passed an even number of arguments"
             end in
  Params r args = r_Errorf r msg /\
  sent (Do c (chain c (Params r args) calls) val) = [] /\
  exists e,
    ret (Do c (chain c (Params r args) calls) val) = Some e /\
    In msg (Models.Messages e).
Proof.
  intros Hmis. cbv zeta.
  assert (Heq : Params r args =
                r_Errorf r
                  match uri r with
                  | None => "Cannot call WithParams before UrlFor or UrlForM"
                  | Some _ =>
                      "WithParams was not passed an even number of arguments"
                  end).
  { unfold Params. destruct (uri r); [|reflexivity].
    destruct Hmis as [Hn|Hodd]; [discriminate|]. now rewrite Hodd. }
  split; [exact Heq|].
  apply recorded_then_refused. rewrite Heq. simpl.
  apply in_or_app. right. now left.
Qed.

(** X25.  [Headers] with an odd number of arguments adds no header and
    records one message; whatever is chained after it, [Do] then sends
    nothing and returns an error with that message. *)
Theorem Headers_misuse_is_final (c : Client) (r : R) (args : list string)
        (calls : list call) (val : dest) :
  odd_len args = true ->
  header (Headers r args) = header r /\
  sent (Do c (chain c (Headers r args) calls) val) = [] /\
  exists e,
    ret (Do c (chain c (Headers r args) calls) val) = Some e /\
    In "WithHeaders was not passed an even number of arguments"
       (Models.Messages e).
Proof.
  intros Hodd.
  assert (Heq : Headers r args =
                r_Errorf r
                  "WithHeaders was not passed an even number of arguments")
    by (unfold Headers; now rewrite Hodd).
  split; [now rewrite Heq|].
  apply recorded_then_refused. rewrite Heq. simpl.
  apply in_or_app. right. now left.
Qed.

End Misuse.

Section PutModelFacts.

Context `{Runtime} `{ModelCodec}.

(** X26.  [PutModel] of an object that [json.Marshal] rejects sends
    nothing: it returns an error that carries the error of the
    marshalling. *)
Theorem PutModel_unmarshallable (c : Client) (obj : Models.ModelValue)
        (e : string) :
  json_Marshal (VModel obj) = Err e ->
  sent (PutModel c obj) = [] /\
  exists e', ret (PutModel c obj) = Some e' /\ In e (Models.Messages e').
Proof.
  intros Hmar. unfold PutModel.
  change (UrlForM c (Put (Req c) (BodyValue (VModel obj))) obj [])
    with (chain c (Put (Req c) (BodyValue (VModel obj)))
                [CallUrlForM obj []]).
  apply recorded_then_refused.
  unfold Put, Body. rewrite Hmar. simpl. now left.
Qed.

End PutModelFacts.

(** ** Further examples on the transport stub *)

Lemma Do_nil_means_answered_witness :
  ret (Do (H := Stub.always (Stub.response 200 "application/json" "{}"))
          Stub.client (Stub.get_machine_foo Stub.client) DestNil) = None /\
  exists resp,
    RoundTrip (Runtime := Stub.always (Stub.response 200 "application/json" "{}"))
      (Do_request Stub.client (Stub.get_machine_foo Stub.client) DestNil
                  Stub.machine_foo_url) = Ok resp /\
    (Http.StatusCode resp < 400)%Z.
Proof.
  split; [reflexivity|].
  destruct (@Do_nil_means_answered
              (Stub.always (Stub.response 200 "application/json" "{}"))
              Stub.client (Stub.get_machine_foo Stub.client) DestNil eq_refl)
    as (u & resp & Hu & _ & _ & _ & Hnet & Hlt).
  assert (Heq : u = Stub.machine_foo_url) by (inversion Hu; reflexivity).
  subst u. exists resp. split; assumption.
Defined.

Lemma Do_rejects_other_content_witness :
  option_map Models.Messages
    (ret (Do (H := Stub.always (Stub.response 204 "text/plain" "gone"))
             Stub.client (Del (Stub.get_machine_foo Stub.client)) DestNil)) =
  Some ["Cannot handle content-type text/plain";
        "No decoder for content-type text/plain"].
Proof.
  assert (Hct : "text/plain" <> "application/json") by discriminate.
  destruct (@Do_rejects_other_content
              (Stub.always (Stub.response 204 "text/plain" "gone"))
              Stub.client (Del (Stub.get_machine_foo Stub.client)) DestNil
              Stub.machine_foo_url (Stub.response 204 "text/plain" "gone")
              eq_refl eq_refl eq_refl eq_refl eq_refl eq_refl eq_refl Hct)
    as [Hret _].
  rewrite Hret. reflexivity.
Defined.

Lemma Do_copies_to_writer_witness :
  (200 < 300)%Z /\
  effect (Do (H := Stub.always (Stub.response 200 "image/png" "bytes"))
             Stub.client (Stub.get_machine_foo Stub.client)
             (DestWriter None Stub.accepts_anything)) = Copied "bytes" /\
  ret (Do (H := Stub.always (Stub.response 200 "image/png" "bytes"))
          Stub.client (Stub.get_machine_foo Stub.client)
          (DestWriter None Stub.accepts_anything)) = None.
Proof.
  split; [reflexivity|].
  exact (@Do_copies_to_writer
           (Stub.always (Stub.response 200 "image/png" "bytes"))
           Stub.client (Stub.get_machine_foo Stub.client)
           Stub.machine_foo_url (Stub.response 200 "image/png" "bytes")
           None Stub.accepts_anything
           eq_refl eq_refl eq_refl eq_refl eq_refl eq_refl).
Defined.

Lemma Headers_appends_witness :
  odd_len ["accept"; "text/a"; "X-Other"; "1"; "ACCEPT"; "text/b"] = false /\
  Http.Values
    (header (Headers (Headers (Req Stub.client) ["Accept"; "text/0"])
                     ["accept"; "text/a"; "X-Other"; "1"; "ACCEPT"; "text/b"]))
    "Accept" = ["text/0"; "text/a"; "text/b"].
Proof.
  split; [reflexivity|].
  exact (proj1 (@Headers_appends
                  (Headers (Req Stub.client) ["Accept"; "text/0"])
                  ["accept"; "text/a"; "X-Other"; "1"; "ACCEPT"; "text/b"]
                  "Accept" eq_refl)).
Defined.

Lemma Do_Authorization_witness :
  exists req,
    sent (Do (H := Stub.always (Stub.response 200 "application/json" "{}"))
             Stub.client
             (Fixtures.with_authorization Stub.client "Basic abc") DestNil)
      = [req] /\
    Http.Values (Http.ReqHeader req) "Authorization" = ["Basic abc"].
Proof.
  exact (@Do_Authorization
           (Stub.always (Stub.response 200 "application/json" "{}"))
           Stub.client (Fixtures.with_authorization Stub.client "Basic abc")
           DestNil Stub.machine_foo_url eq_refl eq_refl eq_refl eq_refl).
Defined.

Lemma Do_trace_headers_witness :
  exists req,
    sent (Do (H := Stub.always (Stub.response 200 "application/json" "{}"))
             Stub.client
             (TraceToken (Trace (Stub.get_machine_foo Stub.client) "debug")
                         "t-1")
             DestNil) = [req] /\
    Http.Values (Http.ReqHeader req) "X-Log-Request" = ["debug"] /\
    Http.Values (Http.ReqHeader req) "X-Log-Token" = ["t-1"].
Proof.
  exact (@Do_trace_headers
           (Stub.always (Stub.response 200 "application/json" "{}"))
           Stub.client
           (TraceToken (Trace (Stub.get_machine_foo Stub.client) "debug")
                       "t-1")
           DestNil Stub.machine_foo_url eq_refl eq_refl eq_refl eq_refl).
Defined.

Lemma chain_keeps_errors_witness :
  Models.ContainsError (err (Params (Req Stub.client) ["limit"])) = true /\
  sent (Do (H := Stub.unreachable) Stub.client
           (chain (H := Stub.unreachable) Stub.client
                  (Params (Req Stub.client) ["limit"])
                  [CallUrlFor ["machines"]; CallParams ["limit"; "10"];
                   CallHeaders ["X-A"; "b"]])
           DestNil) = [].
Proof.
  split; [reflexivity|].
  exact (proj1 (@chain_keeps_errors Stub.unreachable Stub.client
                  (Params (Req Stub.client) ["limit"])
                  [CallUrlFor ["machines"]; CallParams ["limit"; "10"];
                   CallHeaders ["X-A"; "b"]]
                  DestNil eq_refl)).
Defined.

Lemma Params_query_items_witness :
  uri (Params (Stub.get_machine_foo Stub.client)
              ["sort"; "Name"; "limit"; "10"; "Name"; "Eq(a b)"]) =
  Some (Url.set_RawQuery Stub.machine_foo_url
          "Name=Eq%28a+b%29&limit=10&sort=Name").
Proof.
  exact (proj1 (@Params_query_items
                  (Stub.get_machine_foo Stub.client) Stub.machine_foo_url
                  ["sort"; "Name"; "limit"; "10"; "Name"; "Eq(a b)"]
                  eq_refl eq_refl)).
Defined.

Lemma Filter_accepts_documented_witness :
  FilterLoop.run ["Name"; "Between"; "a"; "k"; "sort"; "Name"; "reverse"] =
  Some (FilterLoop.Done
          ["Name"; "Between(a,k)"; "sort"; "Name"; "reverse"; "true"]).
Proof.
  exact (proj1 (@Filter_accepts_documented Stub.unreachable Stub.client
                  (Req Stub.client) "machines"
                  [FilterGrammar.Range "Name" "Between" "a" "k";
                   FilterGrammar.OneValue "sort" "Name";
                   FilterGrammar.Reverse]
                  eq_refl)).
Defined.


Lemma ExistsModel_answers_from_server_witness :
  snd (ExistsModel (H := Stub.always (Stub.response 404 "text/plain" "gone"))
                   Stub.client "machines" "foo") = None /\
  exists resp,
    RoundTrip (Runtime := Stub.always (Stub.response 404 "text/plain" "gone"))
      (Do_request Stub.client
                  (set_uri (Head (Req Stub.client))
                           (Some Stub.machine_foo_url))
                  DestNil Stub.machine_foo_url) = Ok resp /\
    Http.StatusCode resp = 404%Z.
Proof.
  split; [reflexivity|].
  destruct (@ExistsModel_answers_from_server
              (Stub.always (Stub.response 404 "text/plain" "gone"))
              Stub.client "machines" "foo" eq_refl)
    as (u & resp & Hu & _ & Hnet & Hst).
  assert (Heq : u = Stub.machine_foo_url) by (inversion Hu; reflexivity).
  subst u. exists resp. split; [exact Hnet|exact Hst].
Defined.

Lemma TokenSession_sends_bearer_witness :
  exists req,
    sent (Do (H := Stub.always (Stub.response 200 "application/json" "{}"))
             (TokenSession "https://127.0.0.1:8092" "secret")
             (UrlFor (H := Stub.always
                             (Stub.response 200 "application/json" "{}"))
                     (TokenSession "https://127.0.0.1:8092" "secret")
                     (Req (TokenSession "https://127.0.0.1:8092" "secret"))
                     ["machines"; "foo"])
             DestNil) = [req] /\
    Http.Values (Http.ReqHeader req) "Authorization" = ["Bearer secret"].
Proof.
  destruct (@TokenSession_sends_bearer
              (Stub.always (Stub.response 200 "application/json" "{}"))
              "https://127.0.0.1:8092" "secret" ["machines"; "foo"] DestNil
              Stub.machine_foo_url eq_refl eq_refl)
    as [_ [req [Hsent [_ Hauth]]]].
  exists req. split; assumption.
Defined.

Lemma request_trace_replaces_session_trace_witness :
  exists req,
    sent (Do (H := Stub.always (Stub.response 200 "application/json" "{}"))
             (Client_Trace Stub.client "debug")
             (Trace (UrlFor (H := Stub.always
                                    (Stub.response 200 "application/json" "{}"))
                            (Client_Trace Stub.client "debug")
                            (Req (Client_Trace Stub.client "debug"))
                            ["machines"; "foo"])
                    EmptyString)
             DestNil) = [req] /\
    Http.Values (Http.ReqHeader req) "X-Log-Request" = [].
Proof.
  exact (@request_trace_replaces_session_trace
           (Stub.always (Stub.response 200 "application/json" "{}"))
           Stub.client "debug" EmptyString ["machines"; "foo"] DestNil
           Stub.machine_foo_url eq_refl eq_refl eq_refl).
Defined.

Lemma empty_key_is_refused_witness :
  Models.ModelKey (Stub.machine EmptyString) = EmptyString /\
  sent (Fill (H := Stub.unreachable) (H0 := Fixtures.codec) Stub.client
             (Req Stub.client) (Stub.machine EmptyString)) = [] /\
  sent (Delete (H := Stub.unreachable) (H0 := Fixtures.codec) Stub.client
               (Req Stub.client) (Stub.machine EmptyString)) = [].
Proof.
  split; [reflexivity|].
  destruct (@empty_key_is_refused Stub.unreachable Fixtures.codec Stub.client
              (Req Stub.client) (Stub.machine EmptyString) eq_refl)
    as (Hf & Hd & _).
  split; assumption.
Defined.

Lemma PatchToFull_mismatch_witness :
  Models.ModelKey (Stub.machine "a") <> Models.ModelKey (Stub.machine "b") /\
  exists e,
    PatchToFull (H := Stub.unreachable) (H0 := Fixtures.codec) Stub.client
                (Stub.machine "a") (Stub.machine "b") true =
      ((Stub.machine "a", Some e), []).
Proof.
  assert (Hk : Models.ModelKey (Stub.machine "a") <>
               Models.ModelKey (Stub.machine "b")) by discriminate.
  split; [exact Hk|].
  destruct (@PatchToFull_mismatch Stub.unreachable Fixtures.codec Stub.client
              (Stub.machine "a") (Stub.machine "b") true (or_intror Hk))
    as [e [He _]].
  exists e. exact He.
Defined.

Lemma PatchToFull_request_witness :
  exists req,
    snd (PatchToFull (H := Stub.always
                             (Stub.response 200 "application/json" "{}"))
                     (H0 := Fixtures.codec) Stub.client
                     (Stub.machine "foo") (Stub.machine "foo") false) = [req] /\
    Http.Method req = "PATCH" /\
    Http.URL req = Stub.machine_foo_url /\
    Http.ReqBody req = Some "{}".
Proof.
  destruct (@PatchToFull_request
              (Stub.always (Stub.response 200 "application/json" "{}"))
              Fixtures.codec Stub.client
              (Stub.machine "foo") (Stub.machine "foo") false [] "{}"
              Stub.machine_foo_url
              eq_refl eq_refl eq_refl eq_refl eq_refl eq_refl eq_refl)
    as (req & Hs & Hm & Hu & Hb & _).
  exists req. repeat split; assumption.
Defined.

Lemma UserSession_uses_basic_auth_witness :
  exists req,
    fst (UserSession (H := Stub.always
                             (Stub.response 200 "application/json" "tok"))
                     "https://127.0.0.1:8092" "rocketskates" "r0cketsk8ts")
      = [req] /\
    Http.Values (Http.ReqHeader req) "Authorization" =
      ["Basic rocketskates:r0cketsk8ts"].
Proof.
  exact (@UserSession_uses_basic_auth
           (Stub.always (Stub.response 200 "application/json" "tok"))
           "https://127.0.0.1:8092" "rocketskates" "r0cketsk8ts"
           Stub.token_url eq_refl eq_refl).
Defined.

Lemma reauth_request_sent_witness :
  exists req,
    sent (reauth (H := Stub.always
                         (Stub.response 200 "application/json" "tok2"))
                 (set_token
                    (new_client "https://127.0.0.1:8092" "rocketskates"
                                "r0cketsk8ts")
                    (Some {| Models.Token := "tok1" |}))) = [req] /\
    Url.RawQuery (Http.URL req) = "ttl=600" /\
    Http.Values (Http.ReqHeader req) "Authorization" = ["Bearer tok1"].
Proof.
  destruct (@reauth_request_sent
              (Stub.always (Stub.response 200 "application/json" "tok2"))
              (set_token
                 (new_client "https://127.0.0.1:8092" "rocketskates"
                             "r0cketsk8ts")
                 (Some {| Models.Token := "tok1" |}))
              Stub.token_url eq_refl eq_refl eq_refl)
    as (req & Hs & _ & Hu & Ha).
  exists req. split; [exact Hs|]. split; [now rewrite Hu|exact Ha].
Defined.

Lemma PostBlob_request_witness :
  exists req,
    sent (PostBlob (H := Stub.always
                           (Stub.response 201 "application/json" "{}"))
                   Stub.client "payload" ["files"; "boot.img"]
                   Stub.accepts_anything) = [req] /\
    Http.Method req = "POST" /\
    Http.ReqBody req = Some "payload".
Proof.
  destruct (@PostBlob_request
              (Stub.always (Stub.response 201 "application/json" "{}"))
              Stub.client "payload" ["files"; "boot.img"]
              Stub.accepts_anything
              {| Url.Scheme := EmptyString; Url.Host := EmptyString;
                 Url.Path := "https://127.0.0.1:8092/api/v3///files/boot.img";
                 Url.RawQuery := EmptyString |}
              eq_refl eq_refl eq_refl)
    as (req & Hs & Hm & _ & Hb & _).
  exists req. repeat split; assumption.
Defined.

Lemma UserSession_token_witness :
  snd (UserSession (H := Stub.always
                           (Stub.response 200 "application/json" "tok"))
                   "https://127.0.0.1:8092" "rocketskates" "r0cketsk8ts") =
  inl (set_token
         (new_client "https://127.0.0.1:8092" "rocketskates" "r0cketsk8ts")
         (Some {| Models.Token := "tok" |})).
Proof.
  exact (@UserSession_token
           (Stub.always (Stub.response 200 "application/json" "tok"))
           "https://127.0.0.1:8092" "rocketskates" "r0cketsk8ts"
           Stub.token_url (Stub.response 200 "application/json" "tok")
           eq_refl eq_refl eq_refl eq_refl eq_refl).
Defined.

Lemma renew_on_tick_witness :
  renew (H := Stub.always (Stub.response 200 "application/json" "tok2"))
        (set_token
           (new_client "https://127.0.0.1:8092" "rocketskates" "r0cketsk8ts")
           (Some {| Models.Token := "tok1" |}))
        Tick =
  Renewed (set_token
             (new_client "https://127.0.0.1:8092" "rocketskates"
                         "r0cketsk8ts")
             (Some {| Models.Token := "tok2" |})).
Proof.
  exact (@renew_on_tick
           (Stub.always (Stub.response 200 "application/json" "tok2"))
           (set_token
              (new_client "https://127.0.0.1:8092" "rocketskates"
                          "r0cketsk8ts")
              (Some {| Models.Token := "tok1" |}))
           Stub.token_url (Stub.response 200 "application/json" "tok2")
           eq_refl eq_refl eq_refl eq_refl eq_refl eq_refl).
Defined.

Lemma Params_misuse_is_final_witness :
  uri (Req Stub.client) = None /\
  sent (Do (H := Stub.unreachable) Stub.client
           (chain (H := Stub.unreachable) Stub.client
                  (Params (Req Stub.client) ["limit"; "10"])
                  [CallUrlFor ["machines"]])
           DestNil) = [].
Proof.
  split; [reflexivity|].
  exact (proj1 (proj2
           (@Params_misuse_is_final Stub.unreachable Stub.client
              (Req Stub.client) ["limit"; "10"] [CallUrlFor ["machines"]]
              DestNil (or_introl eq_refl)))).
Defined.

Lemma Headers_misuse_is_final_witness :
  odd_len ["Accept"] = true /\
  sent (Do (H := Stub.unreachable) Stub.client
           (chain (H := Stub.unreachable) Stub.client
                  (Headers (Stub.get_machine_foo Stub.client) ["Accept"])
                  [CallHeaders ["Accept"; "text/plain"]])
           DestNil) = [].
Proof.
  split; [reflexivity|].
  exact (proj1 (proj2
           (@Headers_misuse_is_final Stub.unreachable Stub.client
              (Stub.get_machine_foo Stub.client) ["Accept"]
              [CallHeaders ["Accept"; "text/plain"]] DestNil eq_refl))).
Defined.

Lemma PutModel_unmarshallable_witness :
  sent (PutModel (H := Fixtures.no_marshal) (H0 := Fixtures.codec)
                 Stub.client (Stub.machine "foo")) = [] /\
  ret (PutModel (H := Fixtures.no_marshal) (H0 := Fixtures.codec)
                Stub.client (Stub.machine "foo")) <> None.
Proof.
  destruct (@PutModel_unmarshallable Fixtures.no_marshal Fixtures.codec
              Stub.client (Stub.machine "foo") "json: unsupported type"
              eq_refl)
    as [Hs [e [He _]]].
  split; [exact Hs|]. rewrite He. discriminate.
Defined.
